(** * Availability resolver of the salon booking application

    A shallow embedding of [get_available_times] and
    [check_appointment_slot_available] (app/client/routes.py) together
    with the model classes they query (app/models), followed by the
    properties of slot discovery and of the booking-time check. *)

From Stdlib Require Import ZArith List String Bool Lia.
From Stdlib Require Import Sorted.
Import ListNotations.
Local Open Scope string_scope.
Local Open Scope list_scope.
Local Open Scope Z_scope.

(** ** Naive dates, times and instants

    Every instant the application stores is a whole minute: the booking
    and block forms parse ['%Y-%m-%d %H:%M'], business hours are parsed
    with ['%H:%M'] and holidays are built from [time(0, 0)] and
    [time(23, 59)]; of the wall clock the code reads only [.date()],
    [.hour] and [.minute].  Instants are therefore counted in minutes.
    The calendar is unbounded here (Python confines it to the years
    1..9999). *)

Definition date := Z.      (* proleptic ordinal, as [date.toordinal()] *)
Definition time := Z.      (* minutes since midnight *)
Definition datetime := Z.  (* minutes since 00:00 of ordinal 0 *)

Definition minutes_per_day : Z := 1440.

(** [datetime.combine(d, t)] *)
Definition combine (d : date) (t : time) : datetime := d * minutes_per_day + t.

(** [dt.date()] and [dt.time()] *)
Definition date_of (dt : datetime) : date := dt / minutes_per_day.
Definition time_of (dt : datetime) : time := dt mod minutes_per_day.

(** [d.weekday()]: Monday is 0; ordinal 1 is a Monday. *)
Definition weekday (d : date) : Z := (d + 6) mod 7.

(** [t.hour] and [t.minute] *)
Definition hour (t : time) : Z := t / 60.
Definition minute (t : time) : Z := t mod 60.

(** [timedelta(minutes=n)] *)
Definition timedelta (minutes : Z) : Z := minutes.

(** ** Exceptions *)

Inductive exn : Type :=
| ValueError (msg : string).

Inductive Exc (A : Type) : Type :=
| Return (a : A)
| Raise (e : exn).
Arguments Return {A} a.
Arguments Raise {A} e.

Definition bind {A B : Type} (c : Exc A) (k : A -> Exc B) : Exc B :=
  match c with
  | Return a => k a
  | Raise e => Raise e
  end.

(** [try: body  except Exception as e: handler(e)] *)
Definition try_except {A : Type} (body : Exc A) (handler : exn -> A) : A :=
  match body with
  | Return a => a
  | Raise e => handler e
  end.

Notation "x <- c ;; k" := (bind c (fun x => k))
  (at level 61, c at next level, right associativity).

(** The constructor [time(h, m)], which checks both fields. *)
Definition mk_time (h m : Z) : Exc time :=
  if negb ((0 <=? h) && (h <=? 23)) then
    Raise (ValueError "hour must be in 0..23")
  else if negb ((0 <=? m) && (m <=? 59)) then
    Raise (ValueError "minute must be in 0..59")
  else Return (h * 60 + m).

(** The two literal times of the day window, [time(0, 0)] and [time(23, 59)]. *)
Definition time_0000 : time := 0 * 60 + 0.
Definition time_2359 : time := 23 * 60 + 59.

(** ** Model classes (app/models) *)

Module Service.
Record t : Type := mk {
  id : Z;
  duration_minutes : Z
}.
End Service.

Module BusinessHours.
Record t : Type := mk {
  day_of_week : Z;
  open_time : time;
  close_time : time;
  is_closed : bool
}.
End BusinessHours.

Module BlockedTime.
Record t : Type := mk {
  stylist_id : Z;
  start_time : datetime;
  end_time : datetime;
  reason : option string;
  is_holiday : bool
}.
End BlockedTime.

Definition STATUS_SCHEDULED : string := "scheduled".
Definition STATUS_COMPLETED : string := "completed".
Definition STATUS_CANCELLED : string := "cancelled".
Definition STATUS_NO_SHOW : string := "no_show".

Module Appointment.
Record t : Type := mk {
  client_id : Z;
  stylist_id : Z;
  service_id : Z;
  start_time : datetime;
  end_time : datetime;
  status : string
}.
End Appointment.

(** The tables, each in the order the store returns its rows. *)
Record Database : Type := mkDatabase {
  services : list Service.t;
  business_hours : list BusinessHours.t;
  blocked_times : list BlockedTime.t;
  appointments : list Appointment.t
}.

(** [Service.query.get(service_id)] *)
Definition Service_get (db : Database) (service_id : Z) : option Service.t :=
  find (fun s => Service.id s =? service_id) (services db).

(** [BusinessHours.query.filter_by(day_of_week=day_of_week).first()] *)
Definition BusinessHours_first (db : Database) (day_of_week : Z)
  : option BusinessHours.t :=
  find (fun h => BusinessHours.day_of_week h =? day_of_week) (business_hours db).

(** ** The request, the clock and the response *)

Record Request : Type := mkRequest {
  form_stylist_id : option string;
  form_service_id : option string;
  form_appointment_date : option string;
  is_json : bool
}.

(** The three readings of [datetime.now()] made by [get_available_times],
    in program order. *)
Record Clock : Type := mkClock {
  now_future_check : datetime;   (* [selected_date < datetime.now().date()] *)
  now_today_check : datetime;    (* [selected_date == datetime.now().date()] *)
  now_rounding : datetime        (* [now = datetime.now().time()] *)
}.

(** What the handler hands back: the JSON error, or the template with
    either an error message or the list of slots.  A slot is kept as its
    start instant; the template receives two renderings of it. *)
Inductive Response : Type :=
| JsonError (error : string) (code : Z)
| RenderError (error_message : string)
| RenderTimes (available_times : list datetime).

Definition slots_of (r : Response) : list datetime :=
  match r with
  | RenderTimes l => l
  | _ => []
  end.

Definition message_of (r : Response) : option string :=
  match r with
  | JsonError m _ => Some m
  | RenderError m => Some m
  | RenderTimes _ => None
  end.

(** Python's [not s] for a form field: missing or empty. *)
Definition not_ (s : option string) : bool :=
  match s with
  | None => true
  | Some EmptyString => true
  | Some _ => false
  end.

Definition str_of_reason (r : option string) : string :=
  match r with
  | Some s => s
  | None => "None"
  end.

(** ** Slot discovery: [get_available_times] *)

Definition interval : Z := 30.
Definition buffer_minutes : Z := 60.

(** The holiday query and the two row sets fetched for the day. *)
Definition holiday_query (db : Database) (stylist_id : Z) (selected_date : date)
  : option BlockedTime.t :=
  find (fun b =>
          (BlockedTime.stylist_id b =? stylist_id)
          && Bool.eqb (BlockedTime.is_holiday b) true
          && (BlockedTime.start_time b <=? combine selected_date time_2359)
          && (BlockedTime.end_time b >=? combine selected_date time_0000))
       (blocked_times db).

Definition blocked_times_query (db : Database) (stylist_id : Z)
  (selected_date : date) : list BlockedTime.t :=
  filter (fun b =>
            (BlockedTime.stylist_id b =? stylist_id)
            && (BlockedTime.start_time b <=? combine selected_date time_2359)
            && (BlockedTime.end_time b >=? combine selected_date time_0000))
         (blocked_times db).

Definition existing_appointments_query (db : Database) (stylist_id : Z)
  (selected_date : date) : list Appointment.t :=
  filter (fun a =>
            (Appointment.stylist_id a =? stylist_id)
            && (Appointment.start_time a >=? combine selected_date time_0000)
            && (Appointment.start_time a <=? combine selected_date time_2359)
            && String.eqb (Appointment.status a) "scheduled")
         (appointments db).

(** The two [for ... if overlap: is_available = False; break] scans. *)
Fixpoint scan_appointments (current_datetime slot_end_time : datetime)
  (l : list Appointment.t) (is_available : bool) : bool :=
  match l with
  | [] => is_available
  | appointment :: rest =>
      if (current_datetime <? Appointment.end_time appointment)
         && (slot_end_time >? Appointment.start_time appointment)
      then false
      else scan_appointments current_datetime slot_end_time rest is_available
  end.

Fixpoint scan_blocked (current_datetime slot_end_time : datetime)
  (l : list BlockedTime.t) (is_available : bool) : bool :=
  match l with
  | [] => is_available
  | blocked :: rest =>
      if (current_datetime <? BlockedTime.end_time blocked)
         && (slot_end_time >? BlockedTime.start_time blocked)
      then false
      else scan_blocked current_datetime slot_end_time rest is_available
  end.

Definition slot_is_available (existing_appointments : list Appointment.t)
  (blocked_times : list BlockedTime.t) (service_duration : Z)
  (current_datetime : datetime) : bool :=
  let slot_end_time := current_datetime + timedelta service_duration in
  let is_available := true in
  let is_available :=
    scan_appointments current_datetime slot_end_time existing_appointments
                      is_available in
  scan_blocked current_datetime slot_end_time blocked_times is_available.

(** The [while current_datetime <= end_datetime] loop, one unfolding per
    unit of fuel. *)
Fixpoint slot_loop (fuel : nat) (existing_appointments : list Appointment.t)
  (blocked_times : list BlockedTime.t) (service_duration : Z)
  (end_datetime current_datetime : datetime) : list datetime :=
  match fuel with
  | O => []
  | S fuel' =>
      if current_datetime <=? end_datetime then
        (if slot_is_available existing_appointments blocked_times
                              service_duration current_datetime
         then [current_datetime] else [])
        ++ slot_loop fuel' existing_appointments blocked_times service_duration
                     end_datetime (current_datetime + timedelta interval)
      else []
  end.

(** The number of times the loop body runs from [current_datetime]. *)
Definition iterations (end_datetime current_datetime : datetime) : nat :=
  Z.to_nat ((end_datetime - current_datetime) / interval + 1).

Definition available_times_from (existing_appointments : list Appointment.t)
  (blocked_times : list BlockedTime.t) (service_duration : Z)
  (end_datetime current_datetime : datetime) : list datetime :=
  slot_loop (iterations end_datetime current_datetime)
            existing_appointments blocked_times service_duration
            end_datetime current_datetime.

(** Lines 340-350: the clock rounded up to the grid, plus the lead buffer. *)
Definition start_minutes_with_buffer (now : time) : Z :=
  let minutes := (hour now * 60) + minute now in
  let next_slot_minutes := ((minutes / interval) + 1) * interval in
  next_slot_minutes + buffer_minutes.

(** Lines 338-358: where slot generation starts. *)
Definition choose_start_time (clk : Clock) (selected_date : date)
  (open_time : time) : Exc time :=
  if selected_date =? date_of (now_today_check clk) then
    let now := time_of (now_rounding clk) in
    let start_hour := start_minutes_with_buffer now / 60 in
    let start_minute := start_minutes_with_buffer now mod 60 in
    current_time <- mk_time start_hour start_minute ;;
    if current_time >? open_time then Return current_time
    else Return open_time
  else Return open_time.

(** Lines 284-396: the [try] block once its three inputs are parsed. *)
Definition available_times_for (db : Database) (clk : Clock)
  (stylist_id service_id : Z) (selected_date : date) : Exc Response :=
  match Service_get db service_id with
  | None => Return (RenderError "Selected service not found")
  | Some service =>
  let day_of_week := weekday selected_date in
  match BusinessHours_first db day_of_week with
  | None => Return (RenderError "We're closed on this day")
  | Some business_hours =>
  if BusinessHours.is_closed business_hours then
    Return (RenderError "We're closed on this day")
  else if selected_date <? date_of (now_future_check clk) then
    Return (RenderError "Please select a future date")
  else
  match holiday_query db stylist_id selected_date with
  | Some holiday =>
      Return (RenderError
                (String.append "Salon closed: "
                               (str_of_reason (BlockedTime.reason holiday))))
  | None =>
  let blocked_times := blocked_times_query db stylist_id selected_date in
  let existing_appointments :=
    existing_appointments_query db stylist_id selected_date in
  let open_time := BusinessHours.open_time business_hours in
  let close_time := BusinessHours.close_time business_hours in
  let service_duration := Service.duration_minutes service in
  start_time <- choose_start_time clk selected_date open_time ;;
  let current_datetime := combine selected_date start_time in
  let end_datetime :=
    combine selected_date close_time - timedelta service_duration in
  Return (RenderTimes
            (available_times_from existing_appointments blocked_times
                                  service_duration end_datetime
                                  current_datetime))
  end end end.

(** The request carries all three form fields, none of them empty. *)
Definition submits (req : Request) (stylist_id service_id date_str : string)
  : Prop :=
  form_stylist_id req = Some stylist_id
  /\ form_service_id req = Some service_id
  /\ form_appointment_date req = Some date_str
  /\ stylist_id <> EmptyString
  /\ service_id <> EmptyString
  /\ date_str <> EmptyString.

(** Lines 270-274: the answer to a request that lacks a field. *)
Definition missing_parameters (req : Request) : Response :=
  if is_json req then JsonError "Missing required parameters" 400
  else RenderError "Please select a stylist, service, and date".

Section Handler.

(** [datetime.strptime(s, '%Y-%m-%d').date()] and [int(s)]; [None]
    stands for the [ValueError] either raises. *)
Variable strptime_date : string -> option date.
Variable int_of_str : string -> option Z.

Definition parse_date (s : string) : Exc date :=
  match strptime_date s with
  | Some d => Return d
  | None => Raise (ValueError "time data does not match format '%Y-%m-%d'")
  end.

Definition int_ (s : string) : Exc Z :=
  match int_of_str s with
  | Some n => Return n
  | None => Raise (ValueError "invalid literal for int() with base 10")
  end.

(** The body of the [try] block, lines 276-396. *)
Definition generate_available_times (db : Database) (clk : Clock)
  (stylist_id service_id date_str : string) : Exc Response :=
  selected_date <- parse_date date_str ;;
  stylist_id <- int_ stylist_id ;;
  service_id <- int_ service_id ;;
  available_times_for db clk stylist_id service_id selected_date.

(** Lines 269-401.  A field that is missing counts as empty, so the last
    branch of the [match] is never taken. *)
Definition get_available_times (req : Request) (db : Database) (clk : Clock)
  : Response :=
  if not_ (form_stylist_id req) || not_ (form_service_id req)
     || not_ (form_appointment_date req)
  then missing_parameters req
  else
    match form_stylist_id req, form_service_id req,
          form_appointment_date req with
    | Some stylist_id, Some service_id, Some date_str =>
        try_except
          (generate_available_times db clk stylist_id service_id date_str)
          (fun e => RenderError "An error occurred. Please try again.")
    | _, _, _ => missing_parameters req
    end.

(** The request carries the three fields, and they parse to these values. *)
Definition parses (req : Request) (stylist_id service_id : Z)
  (selected_date : date) : Prop :=
  exists s1 s2 s3,
    submits req s1 s2 s3
    /\ int_of_str s1 = Some stylist_id
    /\ int_of_str s2 = Some service_id
    /\ strptime_date s3 = Some selected_date.

End Handler.

(** ** Booking-time validation: [check_appointment_slot_available] *)

Definition blocked_time_query (db : Database) (stylist_id : Z)
  (start_time end_time : datetime) : option BlockedTime.t :=
  find (fun b =>
          (BlockedTime.stylist_id b =? stylist_id)
          && (BlockedTime.start_time b <? end_time)
          && (BlockedTime.end_time b >? start_time))
       (blocked_times db).

Definition existing_appointment_query (db : Database) (stylist_id : Z)
  (start_time end_time : datetime) : option Appointment.t :=
  find (fun a =>
          (Appointment.stylist_id a =? stylist_id)
          && String.eqb (Appointment.status a) "scheduled"
          && (Appointment.start_time a <? end_time)
          && (Appointment.end_time a >? start_time))
       (appointments db).

Definition check_appointment_slot_available (db : Database) (stylist_id : Z)
  (start_time end_time : datetime) : bool :=
  let day_of_week := weekday (date_of start_time) in
  match BusinessHours_first db day_of_week with
  | None => false
  | Some business_hours =>
      if BusinessHours.is_closed business_hours then false
      else
        let open_datetime :=
          combine (date_of start_time) (BusinessHours.open_time business_hours) in
        let close_datetime :=
          combine (date_of start_time) (BusinessHours.close_time business_hours) in
        if (start_time <? open_datetime) || (end_time >? close_datetime) then false
        else
          match blocked_time_query db stylist_id start_time end_time with
          | Some _ => false
          | None =>
              match existing_appointment_query db stylist_id start_time end_time with
              | Some _ => false
              | None => true
              end
          end
  end.

(** ** Vocabulary of the properties *)

(** Half-open overlap of an existing interval with the candidate
    [[start, end_)]: [existing.start < end_ AND existing.end > start]. *)
Definition overlaps (existing_start existing_end start end_ : datetime) : Prop :=
  existing_start < end_ /\ existing_end > start.

(** A block covers some part of the day [d]: it starts before the day
    ends and ends after the day starts. *)
Definition covers_part_of (b : BlockedTime.t) (d : date) : Prop :=
  BlockedTime.start_time b < combine (d + 1) time_0000
  /\ combine d time_0000 < BlockedTime.end_time b.

(** The message of the [except] clause. *)
Definition generic_error : Response :=
  RenderError "An error occurred. Please try again.".

(** Same database, other appointment rows. *)
Definition with_appointments (db : Database) (l : list Appointment.t) : Database :=
  mkDatabase (services db) (business_hours db) (blocked_times db) l.

(** ** A concrete salon

    Monday 2024-01-01 has ordinal 738886.  The salon is open 09:00-17:00
    on Monday and Tuesday; service 1 lasts 60 minutes, service 2 lasts 30;
    the stylist has id 1. *)

Module Salon.

Definition strptime_date (s : string) : option date :=
  if String.eqb s "2024-01-01" then Some 738886
  else if String.eqb s "2024-01-02" then Some 738887
  else None.

Definition int_of_str (s : string) : option Z :=
  if String.eqb s "1" then Some 1
  else if String.eqb s "2" then Some 2
  else None.

Definition monday : date := 738886.

(** [datetime(2024, 1, 1, h, m)] *)
Definition at_ (h m : Z) : datetime := combine monday (h * 60 + m).

Definition the_services : list Service.t :=
  [Service.mk 1 60; Service.mk 2 30].

Definition the_hours : list BusinessHours.t :=
  [BusinessHours.mk 0 (9 * 60) (17 * 60) false;
   BusinessHours.mk 1 (9 * 60) (17 * 60) false;
   BusinessHours.mk 6 (9 * 60) (17 * 60) true].

Definition empty_db : Database := mkDatabase the_services the_hours [] [].

(** A request for stylist 1, the 60-minute service, on the Monday. *)
Definition request : Request :=
  mkRequest (Some "1") (Some "1") (Some "2024-01-01") false.

(** All three clock readings at [h:m] of day [d]. *)
Definition clock_at (d : date) (h m : Z) : Clock :=
  let now := combine d (h * 60 + m) in mkClock now now now.

(** The Sunday before. *)
Definition day_before : Clock := clock_at (monday - 1) 12 0.

(** A scheduled appointment of the stylist on the Monday, 10:00-11:00. *)
Definition ten_to_eleven : Appointment.t :=
  Appointment.mk 7 1 1 (at_ 10 0) (at_ 11 0) STATUS_SCHEDULED.

Definition booked_db : Database :=
  mkDatabase the_services the_hours [] [ten_to_eleven].

(** The same appointment once cancelled. *)
Definition cancelled : Appointment.t :=
  Appointment.mk 7 1 1 (at_ 10 0) (at_ 11 0) STATUS_CANCELLED.

(** A scheduled appointment of the stylist that starts on the Sunday at
    16:30 and ends on the Monday at 09:30. *)
Definition overnight : Appointment.t :=
  Appointment.mk 7 1 1 (combine (monday - 1) (16 * 60 + 30)) (at_ 9 30)
                 STATUS_SCHEDULED.

Definition overnight_db : Database :=
  mkDatabase the_services the_hours [] [overnight].

(** The holiday row the admin route stores for the Monday. *)
Definition new_year : BlockedTime.t :=
  BlockedTime.mk 1 (combine monday time_0000) (combine monday time_2359)
                 (Some "New Year") true.

Definition holiday_db : Database :=
  mkDatabase the_services the_hours [new_year] [].

(** A request whose date field is not a date. *)
Definition bad_request : Request :=
  mkRequest (Some "1") (Some "1") (Some "tomorrow") false.

End Salon.

(** Evaluation of closed goals about the concrete salon. *)
Ltac evaluate :=
  vm_compute;
  first [ reflexivity | discriminate | intros; discriminate | tauto
        | intuition (discriminate || congruence) ].

Ltac request_parses :=
  exists "1", "1", "2024-01-01"; repeat split; evaluate.

Local Abbreviation salon_handler :=
  (get_available_times Salon.strptime_date Salon.int_of_str).

(** * The routes that write the tables

    A row's primary key is modelled by its position in the table at the
    time the route runs: [Model.query.get_or_404(id)] reads the row at
    that position. *)

(** ** Users (app/models/user.py) *)

Definition ROLE_CLIENT : string := "client".
Definition ROLE_STYLIST : string := "stylist".
Definition ROLE_ADMIN : string := "admin".

Module User.
Record t : Type := mk {
  id : Z;
  role : string;
  first_name : string;
  last_name : string
}.
End User.

(** [User.query.get(id)] *)
Definition User_get (users : list User.t) (id : Z) : option User.t :=
  find (fun u => User.id u =? id) users.

(** [User.query.filter_by(role=ROLE_STYLIST).all()] *)
Definition stylists_query (users : list User.t) : list User.t :=
  filter (fun u => String.eqb (User.role u) ROLE_STYLIST) users.

(** ** Rows by key *)

Definition get_or_404 {A : Type} (table : list A) (id : nat) : option A :=
  nth_error table id.

(** The table once the row with key [id] is changed by [f]. *)
Fixpoint update_row {A : Type} (id : nat) (f : A -> A) (table : list A)
  : list A :=
  match table, id with
  | [], _ => []
  | row :: rest, O => f row :: rest
  | row :: rest, S id' => row :: update_row id' f rest
  end.

(** The table once [db.session.delete] removed the row with key [id]. *)
Fixpoint delete_row {A : Type} (id : nat) (table : list A) : list A :=
  match table, id with
  | [], _ => []
  | row :: rest, O => rest
  | row :: rest, S id' => row :: delete_row id' rest
  end.

Definition with_blocked_times (db : Database) (l : list BlockedTime.t)
  : Database :=
  mkDatabase (services db) (business_hours db) l (appointments db).

Definition with_business_hours (db : Database) (l : list BusinessHours.t)
  : Database :=
  mkDatabase (services db) l (blocked_times db) (appointments db).

(** ** Methods of [Appointment] (app/models/appointment.py) *)

Definition Appointment_set_status (status : string) (a : Appointment.t)
  : Appointment.t :=
  Appointment.mk (Appointment.client_id a) (Appointment.stylist_id a)
                 (Appointment.service_id a) (Appointment.start_time a)
                 (Appointment.end_time a) status.

Definition Appointment_cancel : Appointment.t -> Appointment.t :=
  Appointment_set_status STATUS_CANCELLED.

Definition Appointment_is_active (a : Appointment.t) : bool :=
  String.eqb (Appointment.status a) STATUS_SCHEDULED.

(** ** The forms and their validators *)

Module AppointmentForm.
Record t : Type := mk {
  stylist_id : Z;
  service_id : Z;
  start_time : datetime;
  notes : string
}.

(** app/client/forms.py, lines 14-21; the two readings of
    [datetime.now()] in program order, [timedelta(hours=1)] in minutes. *)
Definition validate_start_time (now_first now_second : datetime)
  (start_time : datetime) : option string :=
  if start_time <=? now_first then
    Some "Appointment time must be in the future."
  else if start_time <=? now_second + timedelta 60 then
    Some "Appointments must be booked at least 1 hour in advance."
  else None.
End AppointmentForm.

Module BlockTimeForm.
Record t : Type := mk {
  start_time : datetime;
  end_time : datetime;
  reason : string
}.

(** app/stylist/forms.py, lines 14-22. *)
Definition validate_start_time (now : datetime) (form : t) : option string :=
  if start_time form <=? now then Some "Start time must be in the future."
  else None.

Definition validate_end_time (form : t) : option string :=
  if end_time form <=? start_time form then
    Some "End time must be after start time."
  else None.

(** [Length(max=255)] on the reason. *)
Definition validate_reason (form : t) : option string :=
  if (Z.of_nat (String.length (reason form)) >? 255) then
    Some "Field cannot be longer than 255 characters."
  else None.

(** The validators of a submitted form whose fields parsed. *)
Definition validate (now : datetime) (form : t) : bool :=
  match validate_start_time now form, validate_end_time form,
        validate_reason form with
  | None, None, None => true
  | _, _, _ => false
  end.
End BlockTimeForm.

(** [c.isspace()] for a character below 256. *)
Definition isspace (c : Ascii.ascii) : bool :=
  let n := Z.of_nat (Ascii.nat_of_ascii c) in
  ((9 <=? n) && (n <=? 13)) || ((28 <=? n) && (n <=? 32))
  || (n =? 133) || (n =? 160).

(** [s.strip()] is empty. *)
Fixpoint strip_is_empty (s : string) : bool :=
  match s with
  | EmptyString => true
  | String c rest => isspace c && strip_is_empty rest
  end.

Module HolidayForm.
Record t : Type := mk {
  date_ : date;
  description : string
}.

(** app/admin/forms.py, lines 73-75. *)
Definition validate_date (now : datetime) (form : t) : option string :=
  if date_ form <? date_of now then Some "Holiday date cannot be in the past."
  else None.

(** [DataRequired()], which refuses a description that is empty once
    stripped, and [Length(max=255)]. *)
Definition validate_description (form : t) : option string :=
  if strip_is_empty (description form) then Some "This field is required."
  else if (Z.of_nat (String.length (description form)) >? 255) then
    Some "Field cannot be longer than 255 characters."
  else None.

Definition validate (now : datetime) (form : t) : bool :=
  match validate_date now form, validate_description form with
  | None, None => true
  | _, _ => false
  end.
End HolidayForm.

(** ** Client routes: [book_appointment] and [cancel_appointment] *)

Inductive Booking : Type :=
| BookingConfirmed        (* the confirmation is flashed *)
| SlotNoLongerAvailable   (* 'Sorry, this time slot is no longer available' *)
| BookingError.           (* an AttributeError leaves the route *)

Inductive Cancellation : Type :=
| CancellationNotFound    (* 404 *)
| CancellationDenied      (* 'You can only cancel your own appointments.' *)
| CancellationTooLate     (* 'Cannot cancel an appointment that has already started' *)
| CancellationError       (* an AttributeError leaves the route *)
| CancellationDone.

Module Client.

(** app/client/routes.py, lines 79-150: the branch of a form that
    validated.  The new row takes the column default 'scheduled'. *)
Definition book_appointment (users : list User.t) (db : Database)
  (current_user_id : Z) (form : AppointmentForm.t) : Database * Booking :=
  match Service_get db (AppointmentForm.service_id form) with
  | None => (db, BookingError)
  | Some service =>
      let end_time :=
        AppointmentForm.start_time form
        + timedelta (Service.duration_minutes service) in
      let is_available :=
        check_appointment_slot_available db (AppointmentForm.stylist_id form)
          (AppointmentForm.start_time form) end_time in
      if negb is_available then (db, SlotNoLongerAvailable)
      else
        let appointment :=
          Appointment.mk current_user_id (AppointmentForm.stylist_id form)
                         (AppointmentForm.service_id form)
                         (AppointmentForm.start_time form) end_time
                         STATUS_SCHEDULED in
        let db := with_appointments db (appointments db ++ [appointment]) in
        match User_get users (AppointmentForm.stylist_id form) with
        | None => (db, BookingError)
        | Some stylist => (db, BookingConfirmed)
        end
  end.

(** app/client/routes.py, lines 157-217. *)
Definition cancel_appointment (users : list User.t) (db : Database)
  (current_user_id : Z) (utcnow : datetime) (appointment_id : nat)
  : Database * Cancellation :=
  match get_or_404 (appointments db) appointment_id with
  | None => (db, CancellationNotFound)
  | Some appointment =>
      if negb (Appointment.client_id appointment =? current_user_id) then
        (db, CancellationDenied)
      else if Appointment.start_time appointment <=? utcnow then
        (db, CancellationTooLate)
      else
        match User_get users (Appointment.stylist_id appointment),
              Service_get db (Appointment.service_id appointment) with
        | Some stylist, Some service =>
            (with_appointments db
               (update_row appointment_id Appointment_cancel (appointments db)),
             CancellationDone)
        | _, _ => (db, CancellationError)
        end
  end.

End Client.

(** ** Stylist routes *)

Inductive StatusUpdate : Type :=
| StatusNotFound          (* 404 *)
| StatusDenied            (* 'You can only update your own appointments.' *)
| StatusFormShown         (* the submitted status is no choice of the form *)
| StatusError             (* an AttributeError leaves the route *)
| StatusUpdated.

Inductive Removal : Type :=
| RemovalNotFound         (* 404 *)
| RemovalDenied           (* 'You can only remove your own blocked times.' *)
| RemovalDone.

Module Stylist.

Definition status_choices : list string :=
  [STATUS_SCHEDULED; STATUS_COMPLETED; STATUS_CANCELLED; STATUS_NO_SHOW].

(** app/stylist/routes.py, lines 94-146, for a submitted form. *)
Definition update_appointment_status (users : list User.t) (db : Database)
  (current_user_id : Z) (appointment_id : nat) (status : string)
  : Database * StatusUpdate :=
  match get_or_404 (appointments db) appointment_id with
  | None => (db, StatusNotFound)
  | Some appointment =>
      if negb (Appointment.stylist_id appointment =? current_user_id) then
        (db, StatusDenied)
      else if negb (existsb (String.eqb status) status_choices) then
        (db, StatusFormShown)
      else
        let db' :=
          with_appointments db
            (update_row appointment_id (Appointment_set_status status)
                        (appointments db)) in
        match Service_get db' (Appointment.service_id appointment),
              User_get users (Appointment.client_id appointment) with
        | Some service, Some client => (db', StatusUpdated)
        | _, _ => (db', StatusError)
        end
  end.

(** app/stylist/routes.py, lines 151-175, for a submitted form: the
    block is stored when the form validates. *)
Definition availability (db : Database) (current_user_id : Z)
  (now : datetime) (form : BlockTimeForm.t) : Database * bool :=
  if BlockTimeForm.validate now form then
    let blocked_time :=
      BlockedTime.mk current_user_id (BlockTimeForm.start_time form)
                     (BlockTimeForm.end_time form)
                     (Some (BlockTimeForm.reason form)) false in
    (with_blocked_times db (blocked_times db ++ [blocked_time]), true)
  else (db, false).

(** app/stylist/routes.py, lines 194-221. *)
Definition remove_blocked_time (db : Database) (current_user_id : Z)
  (blocked_time_id : nat) : Database * Removal :=
  match get_or_404 (blocked_times db) blocked_time_id with
  | None => (db, RemovalNotFound)
  | Some blocked_time =>
      if negb (BlockedTime.stylist_id blocked_time =? current_user_id) then
        (db, RemovalDenied)
      else
        (with_blocked_times db (delete_row blocked_time_id (blocked_times db)),
         RemovalDone)
  end.

End Stylist.

(** ** Admin routes *)

Definition MONDAY : Z := 0.
Definition TUESDAY : Z := 1.
Definition WEDNESDAY : Z := 2.
Definition THURSDAY : Z := 3.
Definition FRIDAY : Z := 4.
Definition SATURDAY : Z := 5.
Definition SUNDAY : Z := 6.

(** [time(9, 0)] and [time(17, 0)] *)
Definition time_0900 : time := 9 * 60 + 0.
Definition time_1700 : time := 17 * 60 + 0.

(** [day in l] *)
Definition in_ (day : Z) (l : list Z) : bool := existsb (Z.eqb day) l.

Module Admin.

Definition days : list Z :=
  [MONDAY; TUESDAY; WEDNESDAY; THURSDAY; FRIDAY; SATURDAY; SUNDAY].

(** app/admin/routes.py, lines 433-447: the rows added for the days
    that have none, in the order of the loop. *)
Fixpoint default_hours (existing_days : list Z) (days : list Z)
  : list BusinessHours.t :=
  match days with
  | [] => []
  | day :: rest =>
      if negb (in_ day existing_days) then
        BusinessHours.mk day time_0900 time_1700 (in_ day [SATURDAY; SUNDAY])
        :: default_hours existing_days rest
      else default_hours existing_days rest
  end.

Definition create_default_hours (db : Database) : Database :=
  let existing_days := map BusinessHours.day_of_week (business_hours db) in
  with_business_hours db
    (business_hours db ++ default_hours existing_days days).

(** app/admin/routes.py, lines 548-590, for a submitted form: one
    holiday row per stylist when the form validates. *)
Definition holidays (users : list User.t) (db : Database) (now : datetime)
  (form : HolidayForm.t) : Database * bool :=
  if HolidayForm.validate now form then
    let stylists := stylists_query users in
    let rows :=
      map (fun stylist =>
             BlockedTime.mk (User.id stylist)
               (combine (HolidayForm.date_ form) time_0000)
               (combine (HolidayForm.date_ form) time_2359)
               (Some (HolidayForm.description form)) true)
          stylists in
    (with_blocked_times db (blocked_times db ++ rows), true)
  else (db, false).

End Admin.

(** ** Well-formed tables *)

(** Every [time] value lies within one day. *)
Definition valid_time (t : time) : Prop := 0 <= t <= time_2359.

Definition valid_hours (db : Database) : Prop :=
  forall h, In h (business_hours db) ->
    valid_time (BusinessHours.open_time h)
    /\ valid_time (BusinessHours.close_time h).

(** The appointment ends on the day it starts. *)
Definition within_one_day (a : Appointment.t) : Prop :=
  Appointment.end_time a
  <= combine (date_of (Appointment.start_time a)) time_2359.



(** ** The states the routes produce

    The tables start empty ([db.create_all()]) and change only through
    the routes.  The service routes (app/admin/routes.py, lines 349-426)
    store whatever rows the administrator enters; the business-hours
    form (lines 449-525) stores times read with ['%H:%M'], so valid
    times of day.  Every other writer is the route modelled above. *)

Inductive step (db : Database) : Database -> Prop :=
| step_services (l : list Service.t) :
    step db (mkDatabase l (business_hours db) (blocked_times db)
                        (appointments db))
| step_business_hours (l : list BusinessHours.t) :
    (forall h, In h l ->
       valid_time (BusinessHours.open_time h)
       /\ valid_time (BusinessHours.close_time h)) ->
    step db (with_business_hours db l)
| step_default_hours :
    step db (Admin.create_default_hours db)
| step_holidays (users : list User.t) (now : datetime) (form : HolidayForm.t) :
    step db (fst (Admin.holidays users db now form))
| step_availability (current_user_id : Z) (now : datetime)
    (form : BlockTimeForm.t) :
    step db (fst (Stylist.availability db current_user_id now form))
| step_remove_blocked_time (current_user_id : Z) (blocked_time_id : nat) :
    step db (fst (Stylist.remove_blocked_time db current_user_id
                                              blocked_time_id))
| step_update_appointment_status (users : list User.t) (current_user_id : Z)
    (appointment_id : nat) (status : string) :
    step db (fst (Stylist.update_appointment_status users db current_user_id
                                                    appointment_id status))
| step_book_appointment (users : list User.t) (current_user_id : Z)
    (form : AppointmentForm.t) :
    step db (fst (Client.book_appointment users db current_user_id form))
| step_cancel_appointment (users : list User.t) (current_user_id : Z)
    (utcnow : datetime) (appointment_id : nat) :
    step db (fst (Client.cancel_appointment users db current_user_id utcnow
                                            appointment_id)).

Inductive reachable : Database -> Prop :=
| reachable_empty : reachable (mkDatabase [] [] [] [])
| reachable_step (db db' : Database) :
    reachable db -> step db db' -> reachable db'.

(** The shape every reachable state has: business hours are valid
    times, and each stored appointment ends on the day it starts. *)
Definition well_shaped (db : Database) : Prop :=
  valid_hours db /\ forall a, In a (appointments db) -> within_one_day a.

(** ** The concrete salon, continued

    Two stylists (ids 1 and 2) and two clients (ids 7 and 8). *)

Module Scenes.

Definition users : list User.t :=
  [User.mk 1 ROLE_STYLIST "Ada" "Moss"; User.mk 2 ROLE_STYLIST "Bea" "Lind";
   User.mk 7 ROLE_CLIENT "Cy" "Roe"; User.mk 8 ROLE_CLIENT "Di" "Hale"].

(** Client 7 asks for the 60-minute service with stylist 1 at 10:00. *)
Definition form_1000 : AppointmentForm.t :=
  AppointmentForm.mk 1 1 (Salon.at_ 10 0) "window seat".

(** Client 8 asks for the 30-minute service with stylist 1 at 10:30. *)
Definition form_1030 : AppointmentForm.t :=
  AppointmentForm.mk 1 2 (Salon.at_ 10 30) "none".

(** Noon of the Sunday before. *)
Definition sunday_noon : datetime := combine (Salon.monday - 1) (12 * 60).

(** The Monday at 14:05 and at 14:20. *)
Definition monday_1405 : datetime := Salon.at_ 14 5.
Definition monday_1420 : datetime := Salon.at_ 14 20.

(** The tables once the 10:00 appointment is cancelled. *)
Definition cancelled_db : Database :=
  mkDatabase Salon.the_services Salon.the_hours [] [Salon.cancelled].

(** Stylist 1 blocks 12:00-13:00 of the Monday. *)
Definition lunch_form : BlockTimeForm.t :=
  BlockTimeForm.mk (Salon.at_ 12 0) (Salon.at_ 13 0) "lunch".

Definition lunch : BlockedTime.t :=
  BlockedTime.mk 1 (Salon.at_ 12 0) (Salon.at_ 13 0) (Some "lunch") false.

Definition lunch_db : Database :=
  mkDatabase Salon.the_services Salon.the_hours [lunch] [].

(** The administrator declares the Monday a holiday. *)
Definition new_year_form : HolidayForm.t :=
  HolidayForm.mk Salon.monday "New Year".

Definition closed_db : Database :=
  mkDatabase Salon.the_services Salon.the_hours
    [BlockedTime.mk 1 (combine Salon.monday time_0000)
       (combine Salon.monday time_2359) (Some "New Year") true;
     BlockedTime.mk 2 (combine Salon.monday time_0000)
       (combine Salon.monday time_2359) (Some "New Year") true]
    [].

(** A request for the Sunday before, a day flagged closed. *)
Definition strptime_date (s : string) : option date :=
  if String.eqb s "2023-12-31" then Some (Salon.monday - 1)
  else Salon.strptime_date s.

Definition sunday_request : Request :=
  mkRequest (Some "1") (Some "1") (Some "2023-12-31") false.

End Scenes.

(** The business hours of the concrete salon are valid times. *)
Ltac salon_hours_valid :=
  intros h [<- | [<- | [<- | []]]]; unfold valid_time; vm_compute;
  intuition discriminate.

(** * Properties *)

(** ** The overlap test *)

Lemma overlap_test_iff (cur slot_end s e : datetime) :
  (cur <? e) && (slot_end >? s) = true <-> overlaps s e cur slot_end.
Proof.
  unfold overlaps. rewrite andb_true_iff, Z.ltb_lt, Z.gtb_ltb, Z.ltb_lt. lia.
Qed.

Lemma overlap_query_iff (start end_ s e : datetime) :
  (s <? end_) && (e >? start) = true <-> overlaps s e start end_.
Proof.
  unfold overlaps. rewrite andb_true_iff, Z.ltb_lt, Z.gtb_ltb, Z.ltb_lt. lia.
Qed.

Lemma scan_appointments_true (cur slot_end : datetime) (l : list Appointment.t) :
  scan_appointments cur slot_end l true = true <->
  forall a, In a l ->
    ~ overlaps (Appointment.start_time a) (Appointment.end_time a) cur slot_end.
Proof.
  induction l as [| a l IH]; simpl.
  - split; [intros _ a [] | reflexivity].
  - destruct ((cur <? Appointment.end_time a)
              && (slot_end >? Appointment.start_time a)) eqn:E.
    + split; [discriminate |].
      intros H. exfalso. apply (H a (or_introl eq_refl)).
      now apply overlap_test_iff.
    + rewrite IH. split.
      * intros H x [<- | Hx]; [| now apply H].
        rewrite <- overlap_test_iff, E. discriminate.
      * intros H x Hx. apply H. now right.
Qed.

Lemma scan_blocked_false (cur slot_end : datetime) (l : list BlockedTime.t) :
  scan_blocked cur slot_end l false = false.
Proof.
  induction l as [| b l IH]; simpl; [reflexivity |].
  now destruct ((cur <? BlockedTime.end_time b)
                && (slot_end >? BlockedTime.start_time b)).
Qed.

Lemma scan_blocked_true (cur slot_end : datetime) (l : list BlockedTime.t) :
  scan_blocked cur slot_end l true = true <->
  forall b, In b l ->
    ~ overlaps (BlockedTime.start_time b) (BlockedTime.end_time b) cur slot_end.
Proof.
  induction l as [| b l IH]; simpl.
  - split; [intros _ b [] | reflexivity].
  - destruct ((cur <? BlockedTime.end_time b)
              && (slot_end >? BlockedTime.start_time b)) eqn:E.
    + split; [discriminate |].
      intros H. exfalso. apply (H b (or_introl eq_refl)).
      now apply overlap_test_iff.
    + rewrite IH. split.
      * intros H x [<- | Hx]; [| now apply H].
        rewrite <- overlap_test_iff, E. discriminate.
      * intros H x Hx. apply H. now right.
Qed.

(** A candidate passes both scans exactly when no fetched row overlaps it. *)
Lemma slot_is_available_iff (appts : list Appointment.t)
  (blocks : list BlockedTime.t) (dur : Z) (cur : datetime) :
  slot_is_available appts blocks dur cur = true <->
  (forall a, In a appts ->
     ~ overlaps (Appointment.start_time a) (Appointment.end_time a)
                cur (cur + dur))
  /\ (forall b, In b blocks ->
        ~ overlaps (BlockedTime.start_time b) (BlockedTime.end_time b)
                   cur (cur + dur)).
Proof.
  unfold slot_is_available, timedelta.
  destruct (scan_appointments cur (cur + dur) appts true) eqn:E.
  - rewrite scan_blocked_true.
    pose proof (proj1 (scan_appointments_true _ _ _) E). tauto.
  - rewrite scan_blocked_false. split; [discriminate |].
    intros [H _]. apply (proj2 (scan_appointments_true _ _ _)) in H. congruence.
Qed.

(** ** The generation loop *)

(** The fuel handed to [slot_loop] is exactly the number of passes: the
    bounded loop satisfies the equation of the [while] loop. *)
Lemma available_times_from_unfold (appts : list Appointment.t)
  (blocks : list BlockedTime.t) (dur : Z) (end_datetime cur : datetime) :
  available_times_from appts blocks dur end_datetime cur =
  if cur <=? end_datetime then
    (if slot_is_available appts blocks dur cur then [cur] else [])
    ++ available_times_from appts blocks dur end_datetime (cur + interval)
  else [].
Proof.
  unfold available_times_from, iterations, interval.
  destruct (Z.leb_spec cur end_datetime) as [Hle | Hgt].
  - assert (Hq : (end_datetime - cur) / 30 + 1
                 = Z.succ ((end_datetime - (cur + 30)) / 30 + 1)).
    { replace (end_datetime - cur) with (end_datetime - (cur + 30) + 1 * 30) by lia.
      rewrite Z.div_add by lia. lia. }
    rewrite Hq, Z2Nat.inj_succ.
    + simpl. unfold timedelta, interval.
      destruct (Z.leb_spec cur end_datetime); [reflexivity | lia].
    + assert (0 <= (end_datetime - cur) / 30) by (apply Z.div_pos; lia). lia.
  - destruct (Z.to_nat ((end_datetime - cur) / 30 + 1)); [reflexivity |].
    simpl. destruct (Z.leb_spec cur end_datetime); [lia | reflexivity].
Qed.

Lemma available_times_from_past_end (appts : list Appointment.t)
  (blocks : list BlockedTime.t) (dur : Z) (end_datetime cur : datetime) :
  end_datetime < cur ->
  available_times_from appts blocks dur end_datetime cur = [].
Proof.
  intros H. rewrite available_times_from_unfold.
  destruct (Z.leb_spec cur end_datetime); [lia | reflexivity].
Qed.

(** Every start the loop emits lies on the grid from the first candidate,
    is no later than [end_datetime], and passed both scans. *)
Lemma slot_loop_sound (appts : list Appointment.t) (blocks : list BlockedTime.t)
  (dur : Z) (end_datetime : datetime) (fuel : nat) :
  forall cur s,
    In s (slot_loop fuel appts blocks dur end_datetime cur) ->
    (exists k : nat, s = cur + interval * Z.of_nat k)
    /\ s <= end_datetime
    /\ slot_is_available appts blocks dur s = true.
Proof.
  induction fuel as [| fuel IH]; intros cur s Hin; simpl in Hin; [contradiction |].
  destruct (Z.leb_spec cur end_datetime) as [Hle | Hgt]; [| contradiction].
  apply in_app_or in Hin. destruct Hin as [Hin | Hin].
  - destruct (slot_is_available appts blocks dur cur) eqn:E; [| contradiction].
    destruct Hin as [<- | []].
    repeat split; [exists 0%nat; lia | exact Hle | exact E].
  - apply IH in Hin. destruct Hin as [[k ->] [Hle' Hav]].
    repeat split; [| exact Hle' | exact Hav].
    exists (S k). unfold timedelta. lia.
Qed.

(** Conversely every free grid point up to [end_datetime] is emitted. *)
Lemma available_times_from_complete (appts : list Appointment.t)
  (blocks : list BlockedTime.t) (dur : Z) (end_datetime : datetime) (k : nat) :
  forall cur,
    cur + interval * Z.of_nat k <= end_datetime ->
    slot_is_available appts blocks dur (cur + interval * Z.of_nat k) = true ->
    In (cur + interval * Z.of_nat k)
       (available_times_from appts blocks dur end_datetime cur).
Proof.
  induction k as [| k IH]; intros cur Hle Hav;
    rewrite available_times_from_unfold.
  - replace (cur + interval * Z.of_nat 0) with cur in * by lia.
    destruct (Z.leb_spec cur end_datetime); [| lia].
    rewrite Hav. now left.
  - unfold interval in *.
    destruct (Z.leb_spec cur end_datetime); [| lia].
    apply in_or_app. right.
    replace (cur + 30 * Z.of_nat (S k)) with (cur + 30 + 30 * Z.of_nat k) in * by lia.
    now apply IH.
Qed.

(** ** The queries *)

Lemma time_window (d : date) :
  combine d time_0000 = d * 1440 /\ combine d time_2359 = d * 1440 + 1439.
Proof. unfold combine, time_0000, time_2359, minutes_per_day. lia. Qed.

Lemma In_existing_appointments_query (db : Database) (st : Z) (d : date)
  (a : Appointment.t) :
  In a (existing_appointments_query db st d) <->
  In a (appointments db)
  /\ Appointment.stylist_id a = st
  /\ combine d time_0000 <= Appointment.start_time a <= combine d time_2359
  /\ Appointment.status a = "scheduled".
Proof.
  unfold existing_appointments_query.
  rewrite filter_In, !andb_true_iff, Z.eqb_eq, Z.geb_le, Z.leb_le, String.eqb_eq.
  tauto.
Qed.

Lemma In_blocked_times_query (db : Database) (st : Z) (d : date)
  (b : BlockedTime.t) :
  In b (blocked_times_query db st d) <->
  In b (blocked_times db)
  /\ BlockedTime.stylist_id b = st
  /\ BlockedTime.start_time b <= combine d time_2359
  /\ combine d time_0000 <= BlockedTime.end_time b.
Proof.
  unfold blocked_times_query.
  rewrite filter_In, !andb_true_iff, Z.eqb_eq, Z.geb_le, Z.leb_le.
  tauto.
Qed.

Lemma filter_nil_when {A : Type} (f : A -> bool) (l : list A) :
  (forall x, In x l -> f x = false) -> filter f l = [].
Proof.
  induction l as [| x l IH]; intros H; simpl; [reflexivity |].
  rewrite (H x (or_introl eq_refl)). apply IH. intros y Hy. apply H. now right.
Qed.

Lemma find_none_when {A : Type} (f : A -> bool) (l : list A) :
  (forall x, In x l -> f x = false) -> find f l = None.
Proof.
  induction l as [| x l IH]; intros H; simpl; [reflexivity |].
  rewrite (H x (or_introl eq_refl)). apply IH. intros y Hy. apply H. now right.
Qed.

Lemma find_is_some {A : Type} (f : A -> bool) (l : list A) (x : A) :
  In x l -> f x = true -> exists y, find f l = Some y.
Proof.
  intros Hin Hf. destruct (find f l) as [y |] eqn:E; [now exists y |].
  rewrite (find_none f l E x Hin) in Hf. discriminate.
Qed.

(** The holiday query finds a row as soon as one holiday row of the
    stylist meets the day window. *)
Lemma holiday_query_finds (db : Database) (st : Z) (d : date) (b : BlockedTime.t) :
  In b (blocked_times db) ->
  BlockedTime.stylist_id b = st ->
  BlockedTime.is_holiday b = true ->
  BlockedTime.start_time b <= combine d time_2359 ->
  combine d time_0000 <= BlockedTime.end_time b ->
  exists h, holiday_query db st d = Some h.
Proof.
  intros Hin Hst Hhol Hs He. unfold holiday_query.
  apply find_is_some with (x := b); [exact Hin |].
  rewrite Hhol, !andb_true_iff, Z.eqb_eq, Z.leb_le, Z.geb_le. auto.
Qed.

Lemma holiday_query_none (db : Database) (st : Z) (d : date) :
  (forall b, In b (blocked_times db) ->
     BlockedTime.stylist_id b = st -> BlockedTime.is_holiday b = false) ->
  holiday_query db st d = None.
Proof.
  intros H. unfold holiday_query. apply find_none_when. intros b Hb.
  destruct (Z.eqb_spec (BlockedTime.stylist_id b) st) as [E | E]; [| reflexivity].
  now rewrite (H b Hb E).
Qed.

(** ** The handler *)

Lemma mk_time_in_range (h m : Z) :
  0 <= h <= 23 -> 0 <= m <= 59 -> mk_time h m = Return (h * 60 + m).
Proof.
  intros Hh Hm. unfold mk_time.
  destruct (Z.leb_spec 0 h), (Z.leb_spec h 23),
           (Z.leb_spec 0 m), (Z.leb_spec m 59); simpl; try lia; reflexivity.
Qed.

Lemma mk_time_hour_out_of_range (h m : Z) :
  24 <= h -> exists e, mk_time h m = Raise e.
Proof.
  intros Hh. unfold mk_time.
  destruct (Z.leb_spec 0 h), (Z.leb_spec h 23); simpl; try lia; eauto.
Qed.

Lemma not_nonempty (s : string) : s <> EmptyString -> not_ (Some s) = false.
Proof. destruct s; [congruence | reflexivity]. Qed.

Section HandlerFacts.

Variable strptime_date : string -> option date.
Variable int_of_str : string -> option Z.

Local Abbreviation handler := (get_available_times strptime_date int_of_str).
Local Abbreviation body := (generate_available_times strptime_date int_of_str).

(** With all three fields present the [try] block is entered. *)
Lemma get_available_times_submitted (req : Request) (db : Database)
  (clk : Clock) (s1 s2 s3 : string) :
  submits req s1 s2 s3 ->
  handler req db clk = try_except (body db clk s1 s2 s3) (fun _ => generic_error).
Proof.
  intros (E1 & E2 & E3 & N1 & N2 & N3).
  unfold get_available_times. rewrite E1, E2, E3.
  rewrite !not_nonempty by assumption. reflexivity.
Qed.

Lemma get_available_times_parsed (req : Request) (db : Database)
  (clk : Clock) (st sv : Z) (d : date) :
  parses strptime_date int_of_str req st sv d ->
  handler req db clk
  = try_except (available_times_for db clk st sv d) (fun _ => generic_error).
Proof.
  intros (s1 & s2 & s3 & Hsub & P1 & P2 & P3).
  rewrite (get_available_times_submitted _ _ _ _ _ _ Hsub).
  unfold generate_available_times, parse_date, int_.
  rewrite P3, P1, P2. reflexivity.
Qed.

(** A response that carries a slot comes out of the generation loop. *)
Lemma slots_come_from_generation (req : Request) (db : Database)
  (clk : Clock) (s : datetime) :
  In s (slots_of (handler req db clk)) ->
  exists st sv d service business_hours start_time,
    parses strptime_date int_of_str req st sv d
    /\ Service_get db sv = Some service
    /\ BusinessHours_first db (weekday d) = Some business_hours
    /\ BusinessHours.is_closed business_hours = false
    /\ holiday_query db st d = None
    /\ choose_start_time clk d (BusinessHours.open_time business_hours)
       = Return start_time
    /\ handler req db clk
       = RenderTimes
           (available_times_from
              (existing_appointments_query db st d)
              (blocked_times_query db st d)
              (Service.duration_minutes service)
              (combine d (BusinessHours.close_time business_hours)
               - Service.duration_minutes service)
              (combine d start_time)).
Proof.
  unfold get_available_times, missing_parameters.
  destruct (form_stylist_id req) as [s1 |] eqn:F1;
    [| simpl; destruct (is_json req); simpl; tauto].
  destruct (form_service_id req) as [s2 |] eqn:F2;
    [| destruct (not_ (Some s1)), (is_json req); simpl; tauto].
  destruct (form_appointment_date req) as [s3 |] eqn:F3;
    [| destruct (not_ (Some s1)), (not_ (Some s2)), (is_json req);
       simpl; tauto].
  destruct (not_ (Some s1)) eqn:N1;
    [simpl; destruct (is_json req); simpl; tauto |].
  destruct (not_ (Some s2)) eqn:N2;
    [simpl; destruct (is_json req); simpl; tauto |].
  destruct (not_ (Some s3)) eqn:N3;
    [simpl; destruct (is_json req); simpl; tauto |].
  simpl. unfold generate_available_times, parse_date, int_.
  destruct (strptime_date s3) as [d |] eqn:P3; [| simpl; tauto].
  destruct (int_of_str s1) as [st |] eqn:P1; [| simpl; tauto].
  destruct (int_of_str s2) as [sv |] eqn:P2; [| simpl; tauto].
  simpl. unfold available_times_for.
  destruct (Service_get db sv) as [service |] eqn:ES; [| simpl; tauto].
  destruct (BusinessHours_first db (weekday d)) as [bh |] eqn:EB; [| simpl; tauto].
  destruct (BusinessHours.is_closed bh) eqn:EC; [simpl; tauto |].
  destruct (d <? date_of (now_future_check clk)); [simpl; tauto |].
  destruct (holiday_query db st d) eqn:EH; [simpl; tauto |].
  destruct (choose_start_time clk d (BusinessHours.open_time bh))
    as [start_time | e] eqn:ET; [| simpl; tauto].
  simpl. intros Hin.
  exists st, sv, d, service, bh, start_time.
  repeat split; try assumption.
  exists s1, s2, s3. unfold submits.
  repeat split; try assumption; intros ->; discriminate.
Qed.

End HandlerFacts.

Lemma slot_is_available_nil (dur : Z) (cur : datetime) :
  slot_is_available [] [] dur cur = true.
Proof. reflexivity. Qed.

(** With nothing fetched for the day every grid point up to
    [end_datetime] is returned, in order. *)
Lemma available_times_from_free (dur : Z) (end_datetime : datetime) (n : nat) :
  forall cur,
    cur + interval * (Z.of_nat n - 1) <= end_datetime < cur + interval * Z.of_nat n ->
    available_times_from [] [] dur end_datetime cur
    = map (fun k => cur + interval * Z.of_nat k) (seq 0 n).
Proof.
  unfold interval.
  induction n as [| n IH]; intros cur H; rewrite available_times_from_unfold.
  - destruct (Z.leb_spec cur end_datetime); [lia | reflexivity].
  - destruct (Z.leb_spec cur end_datetime); [| lia].
    unfold interval. rewrite IH by lia.
    rewrite slot_is_available_nil.
    change (seq 0 (S n)) with (0%nat :: seq 1 n).
    rewrite <- seq_shift. cbn [map app]. rewrite map_map.
    f_equal; [lia |].
    apply map_ext. intros k. lia.
Qed.

(** ** Slot discovery *)

Section SlotDiscovery.

Variable strptime_date : string -> option date.
Variable int_of_str : string -> option Z.

Local Abbreviation handler := (get_available_times strptime_date int_of_str).
Local Abbreviation parses := (parses strptime_date int_of_str).

(** C1 (as amended).  On a weekday open 09:00-17:00, for a 60-minute
    service, a stylist with no blocked times and no scheduled
    appointments, and a date that is not the current one,
    [get_available_times] returns exactly the starts 09:00, 09:30, ...,
    16:00 at 30-minute steps; that sequence has 15 entries. *)
Theorem nine_to_five_slots (req : Request) (db : Database) (clk : Clock)
  (st sv : Z) (d : date) (service : Service.t) (bh : BusinessHours.t) :
  parses req st sv d ->
  Service_get db sv = Some service ->
  Service.duration_minutes service = 60 ->
  BusinessHours_first db (weekday d) = Some bh ->
  BusinessHours.is_closed bh = false ->
  BusinessHours.open_time bh = 9 * 60 ->
  BusinessHours.close_time bh = 17 * 60 ->
  date_of (now_future_check clk) <= d ->
  date_of (now_today_check clk) <> d ->
  (forall b, In b (blocked_times db) -> BlockedTime.stylist_id b <> st) ->
  (forall a, In a (appointments db) ->
     Appointment.stylist_id a = st -> Appointment.status a <> "scheduled") ->
  handler req db clk
  = RenderTimes
      (map (fun k => combine d (9 * 60 + 30 * Z.of_nat k)) (seq 0 15))
  /\ nth 0 (slots_of (handler req db clk)) 0 = combine d (9 * 60)
  /\ nth 14 (slots_of (handler req db clk)) 0 = combine d (16 * 60)
  /\ List.length (slots_of (handler req db clk)) = 15%nat.
Proof.
  intros Hp Hs Hdur Hb Hopen Ho Hc Hfut Hnow Hblk Happ.
  assert (E : handler req db clk
              = RenderTimes
                  (map (fun k => combine d (9 * 60 + 30 * Z.of_nat k))
                       (seq 0 15))).
  { rewrite (get_available_times_parsed _ _ _ _ _ _ _ _ Hp).
    unfold available_times_for. rewrite Hs, Hb, Hopen.
    destruct (Z.ltb_spec d (date_of (now_future_check clk))); [lia |].
    rewrite holiday_query_none
      by (intros b Hin Hst; exfalso; exact (Hblk b Hin Hst)).
    unfold choose_start_time.
    destruct (Z.eqb_spec d (date_of (now_today_check clk))); [congruence |].
    simpl bind. unfold try_except.
    assert (Eb : blocked_times_query db st d = []).
    { apply filter_nil_when. intros b Hin.
      destruct (Z.eqb_spec (BlockedTime.stylist_id b) st) as [Est | Est];
        [exfalso; exact (Hblk b Hin Est) | reflexivity]. }
    assert (Ea : existing_appointments_query db st d = []).
    { apply filter_nil_when. intros a Hin.
      destruct (Z.eqb_spec (Appointment.stylist_id a) st) as [Est | Est];
        [| reflexivity].
      destruct (String.eqb_spec (Appointment.status a) "scheduled") as [Es | Es];
        [exfalso; exact (Happ a Hin Est Es) |].
      now rewrite !andb_false_r. }
    rewrite Eb, Ea, Hdur, Ho, Hc. f_equal.
    rewrite (available_times_from_free _ _ 15)
      by (unfold combine, timedelta, interval, minutes_per_day; simpl; lia).
    apply map_ext. intros k.
    unfold combine, interval, minutes_per_day. lia. }
  rewrite E. simpl slots_of. repeat split.
Qed.

Lemma parses_functional (req : Request) (st sv st' sv' : Z) (d d' : date) :
  parses req st sv d -> parses req st' sv' d' ->
  st = st' /\ sv = sv' /\ d = d'.
Proof.
  intros (s1 & s2 & s3 & (E1 & E2 & E3 & _) & P1 & P2 & P3)
         (t1 & t2 & t3 & (F1 & F2 & F3 & _) & Q1 & Q2 & Q3).
  assert (s1 = t1) by congruence. assert (s2 = t2) by congruence.
  assert (s3 = t3) by congruence. subst.
  repeat split; congruence.
Qed.

(** On any tables, a candidate start that overlaps, under the half-open
    test, a 'scheduled' appointment of the stylist which starts on the
    requested date (from 00:00 through 23:59) is never returned: these
    are the rows the listing fetches. *)
Theorem scheduled_overlap_excluded (req : Request) (db : Database)
  (clk : Clock) (st sv : Z) (d : date) (service : Service.t)
  (a : Appointment.t) (s : datetime) :
  parses req st sv d ->
  Service_get db sv = Some service ->
  In a (appointments db) ->
  Appointment.stylist_id a = st ->
  Appointment.status a = "scheduled" ->
  combine d time_0000 <= Appointment.start_time a <= combine d time_2359 ->
  overlaps (Appointment.start_time a) (Appointment.end_time a)
           s (s + Service.duration_minutes service) ->
  ~ In s (slots_of (handler req db clk)).
Proof.
  intros Hp Hs Hin Hst Hsch Hday Hov Hslot.
  destruct (slots_come_from_generation _ _ _ _ _ _ Hslot)
    as (st' & sv' & d' & service' & bh & t & Hp' & Hs' & _ & _ & _ & _ & E).
  destruct (parses_functional _ _ _ _ _ _ _ Hp Hp') as (<- & <- & <-).
  assert (service' = service) by congruence. subst service'.
  rewrite E in Hslot. simpl in Hslot. unfold available_times_from in Hslot.
  apply slot_loop_sound in Hslot. destruct Hslot as (_ & _ & Hav).
  apply slot_is_available_iff in Hav. destruct Hav as [Hav _].
  apply (Hav a); [| exact Hov].
  apply In_existing_appointments_query. auto.
Qed.

(** C6.  When a holiday-flagged blocked time of the stylist covers any
    part of the requested date, no slot is returned, whatever the
    service, the appointments and the other blocks are. *)
Theorem holiday_no_slots (req : Request) (db : Database) (clk : Clock)
  (st sv : Z) (d : date) (b : BlockedTime.t) :
  parses req st sv d ->
  In b (blocked_times db) ->
  BlockedTime.stylist_id b = st ->
  BlockedTime.is_holiday b = true ->
  covers_part_of b d ->
  slots_of (handler req db clk) = [].
Proof.
  intros Hp Hin Hst Hhol [Hstart Hend].
  rewrite (get_available_times_parsed _ _ _ _ _ _ _ _ Hp).
  unfold available_times_for.
  destruct (Service_get db sv); [| reflexivity].
  destruct (BusinessHours_first db (weekday d)) as [bh |]; [| reflexivity].
  destruct (BusinessHours.is_closed bh); [reflexivity |].
  destruct (d <? date_of (now_future_check clk)); [reflexivity |].
  destruct (holiday_query_finds db st d b Hin Hst Hhol) as [h ->];
    [| | reflexivity].
  - unfold combine, time_0000, time_2359, minutes_per_day in *. lia.
  - lia.
Qed.

(** C7.  Every start time returned ends, after the service duration, no
    later than the close time of the requested day. *)
Theorem slots_end_by_close (req : Request) (db : Database) (clk : Clock)
  (s : datetime) :
  In s (slots_of (handler req db clk)) ->
  exists st sv d service bh,
    parses req st sv d
    /\ Service_get db sv = Some service
    /\ BusinessHours_first db (weekday d) = Some bh
    /\ s + Service.duration_minutes service
       <= combine d (BusinessHours.close_time bh).
Proof.
  intros Hslot.
  destruct (slots_come_from_generation _ _ _ _ _ _ Hslot)
    as (st & sv & d & service & bh & t & Hp & Hs & Hb & _ & _ & _ & E).
  exists st, sv, d, service, bh. repeat split; try assumption.
  rewrite E in Hslot. simpl in Hslot. unfold available_times_from in Hslot.
  apply slot_loop_sound in Hslot. destruct Hslot as (_ & Hle & _).
  unfold timedelta in Hle. lia.
Qed.

Lemma time_of_range (dt : datetime) : 0 <= time_of dt < 1440.
Proof. unfold time_of, minutes_per_day. apply Z.mod_pos_bound. lia. Qed.

Lemma hour_minute (t : time) : hour t * 60 + minute t = t.
Proof. unfold hour, minute. pose proof (Z.div_mod t 60). lia. Qed.

(** The start of generation on the current day, when the buffered time
    is a valid time of day. *)
Lemma choose_start_time_today (clk : Clock) (d : date) (open_time : time)
  (m : Z) :
  date_of (now_today_check clk) = d ->
  start_minutes_with_buffer (time_of (now_rounding clk)) = m ->
  0 <= m < 1440 ->
  choose_start_time clk d open_time = Return (Z.max open_time m).
Proof.
  intros Hd Hm Hr. unfold choose_start_time.
  rewrite Hd, Z.eqb_refl, Hm.
  rewrite mk_time_in_range.
  - simpl bind. replace (m / 60 * 60 + m mod 60) with m
      by (pose proof (Z.div_mod m 60); lia).
    rewrite Z.gtb_ltb. destruct (Z.ltb_spec open_time m); f_equal; lia.
  - assert (0 <= m / 60) by (apply Z.div_pos; lia).
    assert (m / 60 < 24) by (apply Z.div_lt_upper_bound; lia). lia.
  - pose proof (Z.mod_pos_bound m 60). lia.
Qed.

(** C4.  For the current date at 14:05, with the salon open and 15:30
    within business hours, generation starts at 15:30: no returned
    start precedes 15:30, and 15:30 itself heads the list whenever
    nothing of the stylist overlaps it. *)
Theorem today_1405_earliest_is_1530 (req : Request) (db : Database)
  (clk : Clock) (st sv : Z) (d : date) (service : Service.t)
  (bh : BusinessHours.t) :
  parses req st sv d ->
  Service_get db sv = Some service ->
  BusinessHours_first db (weekday d) = Some bh ->
  BusinessHours.is_closed bh = false ->
  holiday_query db st d = None ->
  date_of (now_future_check clk) <= d ->
  date_of (now_today_check clk) = d ->
  time_of (now_rounding clk) = 14 * 60 + 5 ->
  BusinessHours.open_time bh <= 15 * 60 + 30 ->
  15 * 60 + 30 + Service.duration_minutes service
    <= BusinessHours.close_time bh ->
  (forall s, In s (slots_of (handler req db clk)) ->
     combine d (15 * 60 + 30) <= s)
  /\ ((forall a, In a (appointments db) ->
         Appointment.stylist_id a = st ->
         Appointment.status a = "scheduled" ->
         ~ overlaps (Appointment.start_time a) (Appointment.end_time a)
             (combine d (15 * 60 + 30))
             (combine d (15 * 60 + 30) + Service.duration_minutes service)) ->
      (forall b, In b (blocked_times db) ->
         BlockedTime.stylist_id b = st ->
         ~ overlaps (BlockedTime.start_time b) (BlockedTime.end_time b)
             (combine d (15 * 60 + 30))
             (combine d (15 * 60 + 30) + Service.duration_minutes service)) ->
      exists rest,
        handler req db clk = RenderTimes (combine d (15 * 60 + 30) :: rest)).
Proof.
  intros Hp Hs Hb Hopen Hhol Hfut Htoday Hnow Ho Hc.
  assert (E : handler req db clk
              = RenderTimes
                  (available_times_from
                     (existing_appointments_query db st d)
                     (blocked_times_query db st d)
                     (Service.duration_minutes service)
                     (combine d (BusinessHours.close_time bh)
                      - Service.duration_minutes service)
                     (combine d (15 * 60 + 30)))).
  { rewrite (get_available_times_parsed _ _ _ _ _ _ _ _ Hp).
    unfold available_times_for. rewrite Hs, Hb, Hopen, Hhol.
    destruct (Z.ltb_spec d (date_of (now_future_check clk))); [lia |].
    rewrite (choose_start_time_today clk d _ (15 * 60 + 30) Htoday)
      by (rewrite ?Hnow; first [reflexivity | lia]).
    simpl bind. unfold try_except, timedelta.
    rewrite Z.max_r by exact Ho. reflexivity. }
  rewrite E. simpl slots_of. split.
  - intros s Hin. unfold available_times_from in Hin.
    apply slot_loop_sound in Hin. destruct Hin as ([k ->] & _ & _).
    unfold interval, combine. lia.
  - intros Happ Hblk. rewrite available_times_from_unfold.
    destruct (Z.leb_spec (combine d (15 * 60 + 30))
                (combine d (BusinessHours.close_time bh)
                 - Service.duration_minutes service)) as [_ | Hgt];
      [| unfold combine in Hgt; lia].
    rewrite (proj2 (slot_is_available_iff _ _ _ _)).
    + simpl. eauto.
    + split.
      * intros a Ha. apply In_existing_appointments_query in Ha.
        destruct Ha as (Hin & Hst & _ & Hsch). now apply Happ.
      * intros b Hb'. apply In_blocked_times_query in Hb'.
        destruct Hb' as (Hin & Hst & _). now apply Hblk.
Qed.

(** C8.  An exception raised inside the [try] block (parsing, querying
    or generating) does not leave [get_available_times]: the handler
    returns normally with the generic message and no slots. *)
Theorem exceptions_become_generic_error (req : Request) (db : Database)
  (clk : Clock) (s1 s2 s3 : string) (e : exn) :
  submits req s1 s2 s3 ->
  generate_available_times strptime_date int_of_str db clk s1 s2 s3 = Raise e ->
  handler req db clk = generic_error
  /\ slots_of (handler req db clk) = []
  /\ message_of (handler req db clk)
     = Some "An error occurred. Please try again.".
Proof.
  intros Hsub Hraise.
  rewrite (get_available_times_submitted _ _ _ _ _ _ _ _ Hsub), Hraise.
  repeat split.
Qed.


(** C10.  On the current date from 22:30 on, the buffered start has an
    hour of at least 24, building the start time raises, and the
    handler answers with the generic error and no slots. *)
Theorem late_evening_generic_error (req : Request) (db : Database)
  (clk : Clock) (st sv : Z) (d : date) (service : Service.t)
  (bh : BusinessHours.t) :
  parses req st sv d ->
  Service_get db sv = Some service ->
  BusinessHours_first db (weekday d) = Some bh ->
  BusinessHours.is_closed bh = false ->
  holiday_query db st d = None ->
  date_of (now_future_check clk) <= d ->
  date_of (now_today_check clk) = d ->
  22 * 60 + 30 <= time_of (now_rounding clk) ->
  24 <= start_minutes_with_buffer (time_of (now_rounding clk)) / 60
  /\ (exists e, choose_start_time clk d (BusinessHours.open_time bh) = Raise e)
  /\ handler req db clk = generic_error
  /\ slots_of (handler req db clk) = [].
Proof.
  intros Hp Hs Hb Hopen Hhol Hfut Htoday Hlate.
  pose proof (time_of_range (now_rounding clk)) as Hr.
  assert (Hh : 24 <= start_minutes_with_buffer (time_of (now_rounding clk)) / 60).
  { unfold start_minutes_with_buffer, interval, buffer_minutes.
    rewrite hour_minute.
    apply Z.div_le_lower_bound; [lia |].
    assert (45 <= time_of (now_rounding clk) / 30)
      by (apply Z.div_le_lower_bound; lia).
    lia. }
  assert (Hraise : exists e,
             choose_start_time clk d (BusinessHours.open_time bh) = Raise e).
  { unfold choose_start_time. rewrite Htoday, Z.eqb_refl.
    destruct (mk_time_hour_out_of_range _
                (start_minutes_with_buffer (time_of (now_rounding clk)) mod 60)
                Hh) as [e ->].
    exists e. reflexivity. }
  assert (E : handler req db clk = generic_error).
  { rewrite (get_available_times_parsed _ _ _ _ _ _ _ _ Hp).
    unfold available_times_for. rewrite Hs, Hb, Hopen, Hhol.
    destruct (Z.ltb_spec d (date_of (now_future_check clk))); [lia |].
    destruct Hraise as [e ->]. reflexivity. }
  repeat split; try assumption. now rewrite E.
Qed.

End SlotDiscovery.

(** ** Booking-time validation *)

Lemma blocked_time_query_none (db : Database) (st : Z) (start end_ : datetime) :
  blocked_time_query db st start end_ = None <->
  forall b, In b (blocked_times db) -> BlockedTime.stylist_id b = st ->
    ~ overlaps (BlockedTime.start_time b) (BlockedTime.end_time b) start end_.
Proof.
  unfold blocked_time_query. split.
  - intros H b Hin Hst Hov.
    apply (find_none _ _ H) in Hin.
    rewrite <- andb_assoc, (proj2 (overlap_query_iff _ _ _ _) Hov) in Hin.
    rewrite andb_true_r in Hin. apply Z.eqb_neq in Hin. contradiction.
  - intros H. apply find_none_when. intros b Hin.
    destruct (Z.eqb_spec (BlockedTime.stylist_id b) st) as [Hst | Hst];
      [| reflexivity].
    rewrite <- andb_assoc. simpl.
    destruct ((BlockedTime.start_time b <? end_)
              && (BlockedTime.end_time b >? start)) eqn:E; [| reflexivity].
    exfalso. apply (H b Hin Hst). now apply overlap_query_iff.
Qed.

Lemma existing_appointment_query_none (db : Database) (st : Z)
  (start end_ : datetime) :
  existing_appointment_query db st start end_ = None <->
  forall a, In a (appointments db) -> Appointment.stylist_id a = st ->
    Appointment.status a = "scheduled" ->
    ~ overlaps (Appointment.start_time a) (Appointment.end_time a) start end_.
Proof.
  unfold existing_appointment_query. split.
  - intros H a Hin Hst Hsch Hov.
    apply (find_none _ _ H) in Hin.
    rewrite <- !andb_assoc, (proj2 (overlap_query_iff _ _ _ _) Hov) in Hin.
    rewrite andb_true_r, (proj2 (String.eqb_eq _ _) Hsch), andb_true_r in Hin.
    apply Z.eqb_neq in Hin. contradiction.
  - intros H. apply find_none_when. intros a Hin.
    destruct (Z.eqb_spec (Appointment.stylist_id a) st) as [Hst | Hst];
      [| reflexivity].
    destruct (String.eqb_spec (Appointment.status a) "scheduled") as [Hsch | Hsch];
      [| reflexivity].
    rewrite <- andb_assoc. simpl.
    destruct ((Appointment.start_time a <? end_)
              && (Appointment.end_time a >? start)) eqn:E; [| reflexivity].
    exfalso. apply (H a Hin Hst Hsch). now apply overlap_query_iff.
Qed.

(** Within business hours the check is decided by the two overlap queries. *)
Lemma check_within_hours (db : Database) (st : Z) (start end_ : datetime)
  (bh : BusinessHours.t) :
  BusinessHours_first db (weekday (date_of start)) = Some bh ->
  BusinessHours.is_closed bh = false ->
  combine (date_of start) (BusinessHours.open_time bh) <= start ->
  end_ <= combine (date_of start) (BusinessHours.close_time bh) ->
  check_appointment_slot_available db st start end_ = true <->
  blocked_time_query db st start end_ = None
  /\ existing_appointment_query db st start end_ = None.
Proof.
  intros Hb Hopen Hs He. unfold check_appointment_slot_available.
  rewrite Hb, Hopen, Z.gtb_ltb.
  destruct (Z.ltb_spec start
              (combine (date_of start) (BusinessHours.open_time bh))); [lia |].
  destruct (Z.ltb_spec
              (combine (date_of start) (BusinessHours.close_time bh)) end_);
    [lia |].
  simpl.
  destruct (blocked_time_query db st start end_);
    [split; [discriminate | intros [Hq _]; discriminate] |].
  destruct (existing_appointment_query db st start end_);
    [split; [discriminate | intros [_ Hq]; discriminate] |].
  tauto.
Qed.

(** What the booking route stores has passed the check, so it lies within
    the business hours of the day it starts on. *)
Lemma accepted_within_business_hours (db : Database) (st : Z)
  (start end_ : datetime) :
  check_appointment_slot_available db st start end_ = true ->
  exists bh,
    BusinessHours_first db (weekday (date_of start)) = Some bh
    /\ BusinessHours.is_closed bh = false
    /\ combine (date_of start) (BusinessHours.open_time bh) <= start
    /\ end_ <= combine (date_of start) (BusinessHours.close_time bh).
Proof.
  unfold check_appointment_slot_available.
  destruct (BusinessHours_first db (weekday (date_of start))) as [bh |];
    [| discriminate].
  destruct (BusinessHours.is_closed bh) eqn:Hc; [discriminate |].
  rewrite Z.gtb_ltb.
  destruct (Z.ltb_spec start
              (combine (date_of start) (BusinessHours.open_time bh)));
    [discriminate |].
  destruct (Z.ltb_spec
              (combine (date_of start) (BusinessHours.close_time bh)) end_);
    [discriminate |].
  intros _. exists bh. auto.
Qed.

(** C3.  For a candidate within the day's business hours, the check
    fails as soon as a blocked time or a 'scheduled' appointment of the
    stylist overlaps it under the half-open test, and succeeds when each
    of them is disjoint from the candidate or only touches it at a
    boundary. *)
Theorem half_open_availability (db : Database) (st : Z)
  (start end_ : datetime) (bh : BusinessHours.t) :
  BusinessHours_first db (weekday (date_of start)) = Some bh ->
  BusinessHours.is_closed bh = false ->
  combine (date_of start) (BusinessHours.open_time bh) <= start ->
  end_ <= combine (date_of start) (BusinessHours.close_time bh) ->
  ((exists b, In b (blocked_times db) /\ BlockedTime.stylist_id b = st
              /\ BlockedTime.start_time b < end_
              /\ BlockedTime.end_time b > start)
   \/ (exists a, In a (appointments db) /\ Appointment.stylist_id a = st
                 /\ Appointment.status a = "scheduled"
                 /\ Appointment.start_time a < end_
                 /\ Appointment.end_time a > start) ->
   check_appointment_slot_available db st start end_ = false)
  /\ ((forall b, In b (blocked_times db) -> BlockedTime.stylist_id b = st ->
         BlockedTime.end_time b <= start \/ end_ <= BlockedTime.start_time b) ->
      (forall a, In a (appointments db) -> Appointment.stylist_id a = st ->
         Appointment.status a = "scheduled" ->
         Appointment.end_time a <= start \/ end_ <= Appointment.start_time a) ->
      check_appointment_slot_available db st start end_ = true).
Proof.
  intros Hb Hopen Hs He.
  pose proof (check_within_hours db st start end_ bh Hb Hopen Hs He) as Hiff.
  rewrite blocked_time_query_none, existing_appointment_query_none in Hiff.
  split.
  - intros Hex.
    destruct (check_appointment_slot_available db st start end_); [| reflexivity].
    destruct (proj1 Hiff eq_refl) as [Hblk Happ]. exfalso.
    destruct Hex as [(b & Hin & Hst & Hov) | (a & Hin & Hst & Hsch & Hov)].
    + apply (Hblk b Hin Hst). exact Hov.
    + apply (Happ a Hin Hst Hsch). exact Hov.
  - intros Hblk Happ. apply Hiff. split.
    + intros b Hin Hst [H1 H2]. destruct (Hblk b Hin Hst); lia.
    + intros a Hin Hst Hsch [H1 H2]. destruct (Happ a Hin Hst Hsch); lia.
Qed.

(** ** Appointment status *)

Lemma find_app_skip {A : Type} (f : A -> bool) (l1 l2 : list A) (x : A) :
  f x = false -> find f (l1 ++ x :: l2) = find f (l1 ++ l2).
Proof.
  intros Hx. induction l1 as [| y l1 IH]; simpl.
  - now rewrite Hx.
  - now rewrite IH.
Qed.

Lemma filter_app_skip {A : Type} (f : A -> bool) (l1 l2 : list A) (x : A) :
  f x = false -> filter f (l1 ++ x :: l2) = filter f (l1 ++ l2).
Proof.
  intros Hx. rewrite !filter_app. simpl. now rewrite Hx.
Qed.


(** The three other statuses the model class defines. *)
Lemma inactive_status_not_scheduled (s : string) :
  In s [STATUS_CANCELLED; STATUS_COMPLETED; STATUS_NO_SHOW] ->
  s <> STATUS_SCHEDULED.
Proof. intros [<- | [<- | [<- | []]]]; discriminate. Qed.

Lemma existing_appointments_query_skip (db : Database)
  (before after : list Appointment.t) (a : Appointment.t) (st : Z) (d : date) :
  String.eqb (Appointment.status a) "scheduled" = false ->
  existing_appointments_query (with_appointments db (before ++ a :: after)) st d
  = existing_appointments_query (with_appointments db (before ++ after)) st d.
Proof.
  intros Hst. unfold existing_appointments_query, with_appointments. simpl.
  apply filter_app_skip. now rewrite Hst, andb_false_r.
Qed.



Section Status.

Variable strptime_date : string -> option date.
Variable int_of_str : string -> option Z.


End Status.

(** * The concrete salon *)

(** C1 as stated fails here.  The 09:00-17:00 Monday with the 60-minute
    service, nothing booked or blocked, asked for on the day before: the
    starts run from 09:00 to 16:00, and there are 15 of them, not 16. *)
Lemma nine_to_five_not_sixteen :
  slots_of (salon_handler Salon.request Salon.empty_db Salon.day_before)
  = [Salon.at_ 9 0; Salon.at_ 9 30; Salon.at_ 10 0; Salon.at_ 10 30;
     Salon.at_ 11 0; Salon.at_ 11 30; Salon.at_ 12 0; Salon.at_ 12 30;
     Salon.at_ 13 0; Salon.at_ 13 30; Salon.at_ 14 0; Salon.at_ 14 30;
     Salon.at_ 15 0; Salon.at_ 15 30; Salon.at_ 16 0]
  /\ List.length
       (slots_of (salon_handler Salon.request Salon.empty_db Salon.day_before))
     <> 16%nat.
Proof. split; [reflexivity | vm_compute; discriminate]. Qed.

Lemma nine_to_five_slots_witness :
  salon_handler Salon.request Salon.empty_db Salon.day_before
  = RenderTimes
      (map (fun k => combine Salon.monday (9 * 60 + 30 * Z.of_nat k)) (seq 0 15))
  /\ nth 0 (slots_of (salon_handler Salon.request Salon.empty_db
                                    Salon.day_before)) 0
     = combine Salon.monday (9 * 60)
  /\ nth 14 (slots_of (salon_handler Salon.request Salon.empty_db
                                     Salon.day_before)) 0
     = combine Salon.monday (16 * 60)
  /\ List.length
       (slots_of (salon_handler Salon.request Salon.empty_db Salon.day_before))
     = 15%nat.
Proof.
  apply (nine_to_five_slots Salon.strptime_date Salon.int_of_str
           Salon.request Salon.empty_db Salon.day_before 1 1 Salon.monday
           (Service.mk 1 60) (BusinessHours.mk 0 (9 * 60) (17 * 60) false)).
  - request_parses.
  - reflexivity.
  - reflexivity.
  - reflexivity.
  - reflexivity.
  - reflexivity.
  - reflexivity.
  - evaluate.
  - evaluate.
  - intros b [].
  - intros a [].
Defined.

(** Tables written from outside the routes can hold a 'scheduled' row
    that crosses midnight.  The listing does not fetch it: the overnight
    row of the stylist overlaps the 09:00 candidate of the Monday, and
    09:00 is returned.  No route stores such a row
    ([overnight_db_unreachable]). *)
Lemma overnight_appointment_not_excluded :
  In Salon.overnight (appointments Salon.overnight_db)
  /\ Appointment.stylist_id Salon.overnight = 1
  /\ Appointment.status Salon.overnight = "scheduled"
  /\ overlaps (Appointment.start_time Salon.overnight)
              (Appointment.end_time Salon.overnight)
              (Salon.at_ 9 0) (Salon.at_ 9 0 + 60)
  /\ In (Salon.at_ 9 0)
        (slots_of (salon_handler Salon.request Salon.overnight_db
                                 Salon.day_before)).
Proof.
  repeat split; try reflexivity.
  - now left.
  - vm_compute. now left.
Qed.

Lemma scheduled_overlap_excluded_witness :
  ~ In (Salon.at_ 9 30)
       (slots_of (salon_handler Salon.request Salon.booked_db Salon.day_before)).
Proof.
  apply (scheduled_overlap_excluded Salon.strptime_date Salon.int_of_str
           Salon.request Salon.booked_db Salon.day_before 1 1 Salon.monday
           (Service.mk 1 60) Salon.ten_to_eleven (Salon.at_ 9 30)).
  - request_parses.
  - reflexivity.
  - simpl. left. reflexivity.
  - reflexivity.
  - reflexivity.
  - evaluate.
  - evaluate.
Defined.

(** The spec's scenario with the 10:00-11:00 appointment: 09:30, 10:00 and
    10:30 are excluded, 09:00 and 11:00 remain. *)
Example booked_ten_to_eleven :
  slots_of (salon_handler Salon.request Salon.booked_db Salon.day_before)
  = [Salon.at_ 9 0; Salon.at_ 11 0; Salon.at_ 11 30; Salon.at_ 12 0;
     Salon.at_ 12 30; Salon.at_ 13 0; Salon.at_ 13 30; Salon.at_ 14 0;
     Salon.at_ 14 30; Salon.at_ 15 0; Salon.at_ 15 30; Salon.at_ 16 0].
Proof. reflexivity. Qed.

(** A candidate that starts when the appointment ends is bookable ... *)
Lemma half_open_availability_witness :
  check_appointment_slot_available Salon.booked_db 1
    (Salon.at_ 11 0) (Salon.at_ 12 0) = true.
Proof.
  apply (proj2 (half_open_availability Salon.booked_db 1
                  (Salon.at_ 11 0) (Salon.at_ 12 0)
                  (BusinessHours.mk 0 (9 * 60) (17 * 60) false)
                  eq_refl eq_refl
                  ltac:(evaluate) ltac:(evaluate))).
  - intros b [].
  - intros a [<- | []] _ _. left. evaluate.
Defined.

(** ... and one that starts half an hour before it ends is not. *)
Example half_open_partial_overlap :
  check_appointment_slot_available Salon.booked_db 1
    (Salon.at_ 10 30) (Salon.at_ 11 30) = false
  /\ check_appointment_slot_available Salon.booked_db 1
       (Salon.at_ 9 0) (Salon.at_ 10 0) = true.
Proof. split; reflexivity. Qed.

Lemma today_1405_earliest_is_1530_witness :
  exists rest,
    salon_handler Salon.request Salon.empty_db (Salon.clock_at Salon.monday 14 5)
    = RenderTimes (combine Salon.monday (15 * 60 + 30) :: rest).
Proof.
  apply (proj2 (today_1405_earliest_is_1530
                  Salon.strptime_date Salon.int_of_str
                  Salon.request Salon.empty_db (Salon.clock_at Salon.monday 14 5)
                  1 1 Salon.monday (Service.mk 1 60)
                  (BusinessHours.mk 0 (9 * 60) (17 * 60) false)
                  ltac:(request_parses) eq_refl eq_refl eq_refl eq_refl
                  ltac:(evaluate) eq_refl eq_refl
                  ltac:(evaluate) ltac:(evaluate))).
  - intros a [].
  - intros b [].
Defined.

Example today_1405_slots :
  slots_of (salon_handler Salon.request Salon.empty_db
                          (Salon.clock_at Salon.monday 14 5))
  = [Salon.at_ 15 30; Salon.at_ 16 0].
Proof. reflexivity. Qed.


Example cancelled_keeps_slots :
  In (Salon.at_ 10 0)
     (slots_of (salon_handler Salon.request
                  (with_appointments Salon.empty_db [Salon.cancelled])
                  Salon.day_before))
  /\ check_appointment_slot_available
       (with_appointments Salon.empty_db [Salon.cancelled]) 1
       (Salon.at_ 10 0) (Salon.at_ 11 0) = true.
Proof. split; [vm_compute; tauto | reflexivity]. Qed.

Lemma holiday_no_slots_witness :
  slots_of (salon_handler Salon.request Salon.holiday_db Salon.day_before) = [].
Proof.
  apply (holiday_no_slots Salon.strptime_date Salon.int_of_str
           Salon.request Salon.holiday_db Salon.day_before 1 1 Salon.monday
           Salon.new_year).
  - request_parses.
  - simpl. left. reflexivity.
  - reflexivity.
  - reflexivity.
  - evaluate.
Defined.

Example holiday_message :
  salon_handler Salon.request Salon.holiday_db Salon.day_before
  = RenderError "Salon closed: New Year".
Proof. reflexivity. Qed.

Lemma slots_end_by_close_witness :
  exists st sv d service bh,
    parses Salon.strptime_date Salon.int_of_str Salon.request st sv d
    /\ Service_get Salon.empty_db sv = Some service
    /\ BusinessHours_first Salon.empty_db (weekday d) = Some bh
    /\ Salon.at_ 16 0 + Service.duration_minutes service
       <= combine d (BusinessHours.close_time bh).
Proof.
  apply (slots_end_by_close Salon.strptime_date Salon.int_of_str
           Salon.request Salon.empty_db Salon.day_before (Salon.at_ 16 0)).
  vm_compute. tauto.
Defined.

Lemma exceptions_become_generic_error_witness :
  salon_handler Salon.bad_request Salon.empty_db Salon.day_before
  = generic_error
  /\ slots_of (salon_handler Salon.bad_request Salon.empty_db Salon.day_before)
     = []
  /\ message_of (salon_handler Salon.bad_request Salon.empty_db
                               Salon.day_before)
     = Some "An error occurred. Please try again.".
Proof.
  apply (exceptions_become_generic_error
           Salon.strptime_date Salon.int_of_str
           Salon.bad_request Salon.empty_db Salon.day_before
           "1" "1" "tomorrow"
           (ValueError "time data does not match format '%Y-%m-%d'")).
  - repeat split; evaluate.
  - reflexivity.
Defined.


(** At 14:00 sharp the first slot offered is 15:30, as at 14:05. *)
Example today_1400_slots :
  choose_start_time (Salon.clock_at Salon.monday 14 0) Salon.monday (9 * 60)
  = Return (15 * 60 + 30)
  /\ slots_of (salon_handler Salon.request Salon.empty_db
                             (Salon.clock_at Salon.monday 14 0))
     = [Salon.at_ 15 30; Salon.at_ 16 0].
Proof. split; reflexivity. Qed.

Lemma late_evening_generic_error_witness :
  24 <= start_minutes_with_buffer
          (time_of (now_rounding (Salon.clock_at Salon.monday 22 30))) / 60
  /\ (exists e,
        choose_start_time (Salon.clock_at Salon.monday 22 30) Salon.monday
          (BusinessHours.open_time (BusinessHours.mk 0 (9 * 60) (17 * 60) false))
        = Raise e)
  /\ salon_handler Salon.request Salon.empty_db
       (Salon.clock_at Salon.monday 22 30) = generic_error
  /\ slots_of (salon_handler Salon.request Salon.empty_db
                             (Salon.clock_at Salon.monday 22 30)) = [].
Proof.
  apply (late_evening_generic_error Salon.strptime_date Salon.int_of_str
           Salon.request Salon.empty_db (Salon.clock_at Salon.monday 22 30)
           1 1 Salon.monday (Service.mk 1 60)
           (BusinessHours.mk 0 (9 * 60) (17 * 60) false)).
  - request_parses.
  - reflexivity.
  - reflexivity.
  - reflexivity.
  - reflexivity.
  - evaluate.
  - reflexivity.
  - evaluate.
Defined.

(** One minute earlier the handler still answers with an (empty) list. *)
Example at_2229_empty_list :
  salon_handler Salon.request Salon.empty_db (Salon.clock_at Salon.monday 22 29)
  = RenderTimes [].
Proof. reflexivity. Qed.


(** * Slot discovery, continued *)

(** The starts the loop emits increase strictly. *)
Lemma slot_loop_sorted (appts : list Appointment.t) (blocks : list BlockedTime.t)
  (dur : Z) (end_datetime : datetime) (fuel : nat) :
  forall cur,
    StronglySorted Z.lt (slot_loop fuel appts blocks dur end_datetime cur).
Proof.
  induction fuel as [| fuel IH]; intros cur; simpl; [constructor |].
  destruct (cur <=? end_datetime); [| constructor].
  assert (Hrest : Forall (Z.lt cur)
                    (slot_loop fuel appts blocks dur end_datetime
                               (cur + timedelta interval))).
  { apply Forall_forall. intros s Hin. apply slot_loop_sound in Hin.
    destruct Hin as ([k ->] & _ & _). unfold timedelta, interval. lia. }
  destruct (slot_is_available appts blocks dur cur); simpl.
  - constructor; [apply IH | exact Hrest].
  - apply IH.
Qed.

Section Listing.

Variable strptime_date : string -> option date.
Variable int_of_str : string -> option Z.

Local Abbreviation handler := (get_available_times strptime_date int_of_str).
Local Abbreviation parses := (parses strptime_date int_of_str).

(** X1.  Whatever the request, the tables and the clock, the starts
    returned by [get_available_times] are in strictly ascending order
    (so no start is returned twice). *)
Theorem slots_strictly_ascending (req : Request) (db : Database) (clk : Clock) :
  StronglySorted Z.lt (slots_of (handler req db clk)).
Proof.
  destruct (slots_of (handler req db clk)) as [| s l] eqn:E; [constructor |].
  assert (Hin : In s (slots_of (handler req db clk)))
    by (rewrite E; now left).
  destruct (slots_come_from_generation _ _ _ _ _ _ Hin)
    as (st & sv & d & service & bh & t & _ & _ & _ & _ & _ & _ & E').
  rewrite <- E, E'. simpl. apply slot_loop_sorted.
Qed.

(** The response on a day that is open, not past, not the current one
    and free of holiday rows. *)
Lemma handler_on_future_day (req : Request) (db : Database) (clk : Clock)
  (st sv : Z) (d : date) (service : Service.t) (bh : BusinessHours.t) :
  parses req st sv d ->
  Service_get db sv = Some service ->
  BusinessHours_first db (weekday d) = Some bh ->
  BusinessHours.is_closed bh = false ->
  holiday_query db st d = None ->
  date_of (now_future_check clk) <= d ->
  date_of (now_today_check clk) <> d ->
  handler req db clk
  = RenderTimes
      (available_times_from
         (existing_appointments_query db st d) (blocked_times_query db st d)
         (Service.duration_minutes service)
         (combine d (BusinessHours.close_time bh)
          - Service.duration_minutes service)
         (combine d (BusinessHours.open_time bh))).
Proof.
  intros Hp Hs Hb Hopen Hhol Hfut Hnow.
  rewrite (get_available_times_parsed _ _ _ _ _ _ _ _ Hp).
  unfold available_times_for. rewrite Hs, Hb, Hopen, Hhol.
  destruct (Z.ltb_spec d (date_of (now_future_check clk))); [lia |].
  unfold choose_start_time.
  destruct (Z.eqb_spec d (date_of (now_today_check clk))); [congruence |].
  reflexivity.
Qed.

(** X2.  On an open day that is neither past nor the current one and has
    no holiday row, a start is returned exactly when it lies on the
    30-minute grid from opening time, ends by closing time, and overlaps
    neither a 'scheduled' appointment of the stylist starting that day
    nor a blocked time of the stylist meeting the day. *)
Theorem future_day_slots_characterised (req : Request) (db : Database)
  (clk : Clock) (st sv : Z) (d : date) (service : Service.t)
  (bh : BusinessHours.t) (s : datetime) :
  parses req st sv d ->
  Service_get db sv = Some service ->
  BusinessHours_first db (weekday d) = Some bh ->
  BusinessHours.is_closed bh = false ->
  holiday_query db st d = None ->
  date_of (now_future_check clk) <= d ->
  date_of (now_today_check clk) <> d ->
  In s (slots_of (handler req db clk)) <->
  (exists k : nat,
      s = combine d (BusinessHours.open_time bh) + 30 * Z.of_nat k)
  /\ s + Service.duration_minutes service
     <= combine d (BusinessHours.close_time bh)
  /\ (forall a, In a (appointments db) ->
        Appointment.stylist_id a = st ->
        Appointment.status a = "scheduled" ->
        combine d time_0000 <= Appointment.start_time a <= combine d time_2359 ->
        ~ overlaps (Appointment.start_time a) (Appointment.end_time a)
                   s (s + Service.duration_minutes service))
  /\ (forall b, In b (blocked_times db) ->
        BlockedTime.stylist_id b = st ->
        BlockedTime.start_time b <= combine d time_2359 ->
        combine d time_0000 <= BlockedTime.end_time b ->
        ~ overlaps (BlockedTime.start_time b) (BlockedTime.end_time b)
                   s (s + Service.duration_minutes service)).
Proof.
  intros Hp Hs Hb Hopen Hhol Hfut Hnow.
  rewrite (handler_on_future_day _ _ _ _ _ _ _ _ Hp Hs Hb Hopen Hhol Hfut Hnow).
  simpl slots_of. split.
  - intros Hin. unfold available_times_from in Hin.
    apply slot_loop_sound in Hin. destruct Hin as (Hk & Hle & Hav).
    apply slot_is_available_iff in Hav. destruct Hav as [Ha Hbk].
    split; [exact Hk |]. split; [lia |]. split.
    + intros a Hin Hst Hsch Hday. apply Ha.
      apply In_existing_appointments_query. auto.
    + intros b Hin Hst H1 H2. apply Hbk.
      apply In_blocked_times_query. auto.
  - intros ([k ->] & Hle & Ha & Hbk).
    apply available_times_from_complete; [unfold interval; lia |].
    apply slot_is_available_iff. unfold interval. split.
    + intros a Hin. apply In_existing_appointments_query in Hin.
      destruct Hin as (Hin & Hst & Hday & Hsch). now apply Ha.
    + intros b Hin. apply In_blocked_times_query in Hin.
      destruct Hin as (Hin & Hst & H1 & H2). now apply Hbk.
Qed.

End Listing.

Lemma date_of_spec (dt : datetime) :
  date_of dt * 1440 <= dt < date_of dt * 1440 + 1440.
Proof.
  unfold date_of, minutes_per_day.
  pose proof (Z.div_mod dt 1440). pose proof (Z.mod_pos_bound dt 1440). lia.
Qed.

Lemma date_of_unique (d : date) (dt : datetime) :
  d * 1440 <= dt < d * 1440 + 1440 -> date_of dt = d.
Proof.
  intros H. pose proof (date_of_spec dt). nia.
Qed.

Lemma combine_bounds (d : date) (t : time) :
  valid_time t -> d * 1440 <= combine d t <= d * 1440 + 1439.
Proof.
  unfold valid_time, combine, time_2359, minutes_per_day. lia.
Qed.

Lemma first_hours_valid (db : Database) (w : Z) (bh : BusinessHours.t) :
  valid_hours db -> BusinessHours_first db w = Some bh ->
  valid_time (BusinessHours.open_time bh)
  /\ valid_time (BusinessHours.close_time bh).
Proof.
  intros Hv Hb. apply Hv. unfold BusinessHours_first in Hb.
  now apply find_some in Hb.
Qed.

(** Rounding up and adding the buffer lands more than an hour later. *)
Lemma start_minutes_with_buffer_lower (t : time) :
  t + 60 < start_minutes_with_buffer t.
Proof.
  unfold start_minutes_with_buffer, interval, buffer_minutes.
  rewrite hour_minute.
  pose proof (Z.div_mod t 30). pose proof (Z.mod_pos_bound t 30). lia.
Qed.

(** Generation never starts before opening time, nor, on the current
    date, before the buffered clock. *)
Lemma choose_start_time_lower (clk : Clock) (d : date) (open_time t0 : time) :
  choose_start_time clk d open_time = Return t0 ->
  open_time <= t0
  /\ (date_of (now_today_check clk) = d ->
      start_minutes_with_buffer (time_of (now_rounding clk)) <= t0).
Proof.
  unfold choose_start_time.
  destruct (Z.eqb_spec d (date_of (now_today_check clk))) as [Hd | Hd].
  - set (m := start_minutes_with_buffer (time_of (now_rounding clk))).
    unfold mk_time.
    destruct (negb ((0 <=? m / 60) && (m / 60 <=? 23))); [discriminate |].
    destruct (negb ((0 <=? m mod 60) && (m mod 60 <=? 59))); [discriminate |].
    simpl bind. pose proof (Z.div_mod m 60).
    rewrite Z.gtb_ltb.
    destruct (Z.ltb_spec open_time (m / 60 * 60 + m mod 60));
      intros [= <-]; lia.
  - intros [= <-]. split; [lia | congruence].
Qed.

Section ListingFacts.

Variable strptime_date : string -> option date.
Variable int_of_str : string -> option Z.

Local Abbreviation handler := (get_available_times strptime_date int_of_str).
Local Abbreviation parses := (parses strptime_date int_of_str).

(** What is known of a returned start. *)
Lemma listed_slot (req : Request) (db : Database) (clk : Clock)
  (st sv : Z) (d : date) (service : Service.t) (s : datetime) :
  In s (slots_of (handler req db clk)) ->
  parses req st sv d ->
  Service_get db sv = Some service ->
  exists bh t0,
    BusinessHours_first db (weekday d) = Some bh
    /\ BusinessHours.is_closed bh = false
    /\ choose_start_time clk d (BusinessHours.open_time bh) = Return t0
    /\ combine d t0 <= s
    /\ s + Service.duration_minutes service
       <= combine d (BusinessHours.close_time bh)
    /\ slot_is_available (existing_appointments_query db st d)
         (blocked_times_query db st d) (Service.duration_minutes service) s
       = true.
Proof.
  intros Hin Hp Hs.
  destruct (slots_come_from_generation _ _ _ _ _ _ Hin)
    as (st' & sv' & d' & service' & bh & t0 & Hp' & Hs' & Hb & Hc & _ & Ht & E).
  destruct (parses_functional _ _ _ _ _ _ _ _ _ Hp Hp') as (<- & <- & <-).
  assert (service' = service) by congruence. subst service'.
  exists bh, t0. rewrite E in Hin. simpl in Hin.
  unfold available_times_from in Hin. apply slot_loop_sound in Hin.
  destruct Hin as ([k ->] & Hle & Hav). unfold timedelta, interval in *.
  repeat split; try assumption; lia.
Qed.

(** No start is returned for a date before the current one. *)
Lemma listed_not_past (req : Request) (db : Database) (clk : Clock)
  (st sv : Z) (d : date) (s : datetime) :
  In s (slots_of (handler req db clk)) ->
  parses req st sv d ->
  date_of (now_future_check clk) <= d.
Proof.
  intros Hin Hp.
  rewrite (get_available_times_parsed _ _ _ _ _ _ _ _ Hp) in Hin.
  unfold available_times_for in Hin.
  destruct (Service_get db sv); [| contradiction].
  destruct (BusinessHours_first db (weekday d)) as [bh |]; [| contradiction].
  destruct (BusinessHours.is_closed bh); [contradiction |].
  destruct (Z.ltb_spec d (date_of (now_future_check clk)));
    [contradiction | lia].
Qed.

(** On the current date a returned start lies more than an hour after
    the time of day read from the clock. *)
Lemma listed_today_lower (req : Request) (db : Database) (clk : Clock)
  (st sv : Z) (d : date) (s : datetime) :
  In s (slots_of (handler req db clk)) ->
  parses req st sv d ->
  date_of (now_today_check clk) = d ->
  combine d (start_minutes_with_buffer (time_of (now_rounding clk))) <= s.
Proof.
  intros Hin Hp Htoday.
  destruct (slots_come_from_generation _ _ _ _ _ _ Hin)
    as (st' & sv' & d' & service & bh & t0 & Hp' & Hs & _).
  destruct (parses_functional _ _ _ _ _ _ _ _ _ Hp Hp') as (<- & <- & <-).
  destruct (listed_slot _ _ _ _ _ _ _ _ Hin Hp Hs)
    as (bh' & t1 & _ & _ & Ht & Hlow & _).
  apply choose_start_time_lower in Ht. destruct Ht as [_ Ht].
  specialize (Ht Htoday). unfold combine in *. lia.
Qed.

End ListingFacts.

Section ListingGuarantees.

Variable strptime_date : string -> option date.
Variable int_of_str : string -> option Z.

Local Abbreviation handler := (get_available_times strptime_date int_of_str).
Local Abbreviation parses := (parses strptime_date int_of_str).

(** X3.  For a request for the current date, every returned start lies
    more than 60 minutes after the clock reading that was rounded. *)
Theorem today_slots_respect_lead_time (req : Request) (db : Database)
  (clk : Clock) (st sv : Z) (d : date) (s : datetime) :
  parses req st sv d ->
  date_of (now_today_check clk) = d ->
  date_of (now_rounding clk) = d ->
  In s (slots_of (handler req db clk)) ->
  now_rounding clk + 60 < s.
Proof.
  intros Hp Htoday Hround Hin.
  pose proof (listed_today_lower _ _ _ _ _ _ _ _ _ Hin Hp Htoday) as Hlow.
  pose proof (start_minutes_with_buffer_lower (time_of (now_rounding clk))).
  pose proof (Z.div_mod (now_rounding clk) 1440 ltac:(lia)) as Hdm.
  unfold date_of, time_of, combine, minutes_per_day in *. lia.
Qed.

(** X4.  When the clock stands at [now] throughout the request and the
    business hours are valid times, no returned start has already
    begun: each one lies strictly after [now]. *)
Theorem no_slot_in_the_past (req : Request) (db : Database) (now : datetime)
  (s : datetime) :
  valid_hours db ->
  In s (slots_of (handler req db (mkClock now now now))) ->
  now < s.
Proof.
  intros Hv Hin.
  destruct (slots_come_from_generation _ _ _ _ _ _ Hin)
    as (st & sv & d & service & bh & t0 & Hp & Hs & _).
  pose proof (listed_not_past _ _ _ _ _ _ _ _ _ Hin Hp) as Hfut.
  simpl in Hfut.
  destruct (Z.eq_dec (date_of now) d) as [Htoday | Hother].
  - pose proof (listed_today_lower _ _ _ _ _ _ _ _ _ Hin Hp Htoday) as Hlow.
    simpl in Hlow.
    pose proof (start_minutes_with_buffer_lower (time_of now)).
    pose proof (Z.div_mod now 1440 ltac:(lia)).
    unfold date_of, time_of, combine, minutes_per_day in *. lia.
  - destruct (listed_slot _ _ _ _ _ _ _ _ _ _ Hin Hp Hs)
      as (bh' & t1 & Hb & _ & Ht & Hlow & _).
    apply choose_start_time_lower in Ht. destruct Ht as [Ht _].
    destruct (first_hours_valid _ _ _ Hv Hb) as [[Ho _] _].
    pose proof (date_of_spec now). unfold combine, minutes_per_day in *. nia.
Qed.

(** X5.  With valid business hours, a returned start never overlaps a
    blocked time of the requested stylist, holiday or not, wherever the
    block begins or ends. *)
Theorem slots_avoid_blocked_times (req : Request) (db : Database)
  (clk : Clock) (st sv : Z) (d : date) (service : Service.t)
  (b : BlockedTime.t) (s : datetime) :
  valid_hours db ->
  parses req st sv d ->
  Service_get db sv = Some service ->
  In b (blocked_times db) ->
  BlockedTime.stylist_id b = st ->
  In s (slots_of (handler req db clk)) ->
  ~ overlaps (BlockedTime.start_time b) (BlockedTime.end_time b)
             s (s + Service.duration_minutes service).
Proof.
  intros Hv Hp Hs Hb Hst Hin [Hov1 Hov2].
  destruct (listed_slot _ _ _ _ _ _ _ _ _ _ Hin Hp Hs)
    as (bh & t0 & Hbh & _ & Ht & Hlow & Hhigh & Hav).
  apply choose_start_time_lower in Ht. destruct Ht as [Ht _].
  destruct (first_hours_valid _ _ _ Hv Hbh) as [[Ho _] [_ Hc]].
  apply slot_is_available_iff in Hav. destruct Hav as [_ Hav].
  apply (Hav b); [| split; assumption].
  apply In_blocked_times_query. repeat split; try assumption;
    unfold combine, time_0000, time_2359, minutes_per_day in *; lia.
Qed.

(** X6.  Listing agrees with booking: when business hours are valid
    times, durations are not negative and every 'scheduled' appointment
    ends on the day it starts, each returned start passes
    [check_appointment_slot_available] for the service's duration. *)
Theorem listed_slot_is_bookable (req : Request) (db : Database)
  (clk : Clock) (st sv : Z) (d : date) (service : Service.t) (s : datetime) :
  valid_hours db ->
  (forall x, In x (services db) -> 0 <= Service.duration_minutes x) ->
  (forall a, In a (appointments db) ->
     Appointment.status a = STATUS_SCHEDULED -> within_one_day a) ->
  parses req st sv d ->
  Service_get db sv = Some service ->
  In s (slots_of (handler req db clk)) ->
  check_appointment_slot_available db st s
    (s + Service.duration_minutes service) = true.
Proof.
  intros Hv Hdur Hday Hp Hs Hin.
  destruct (listed_slot _ _ _ _ _ _ _ _ _ _ Hin Hp Hs)
    as (bh & t0 & Hbh & Hopen & Ht & Hlow & Hhigh & Hav).
  apply choose_start_time_lower in Ht. destruct Ht as [Ht _].
  destruct (first_hours_valid _ _ _ Hv Hbh) as [[Ho _] [_ Hc]].
  assert (Hd : 0 <= Service.duration_minutes service).
  { apply Hdur. unfold Service_get in Hs. now apply find_some in Hs. }
  assert (Hdate : date_of s = d).
  { apply date_of_unique.
    unfold combine, time_2359, minutes_per_day in *. lia. }
  apply slot_is_available_iff in Hav. destruct Hav as [Hav_a Hav_b].
  apply (check_within_hours db st s _ bh); rewrite ?Hdate; try assumption.
  - unfold combine in *. lia.
  - split.
    + apply blocked_time_query_none. intros b Hb Hst [Hov1 Hov2].
      apply (Hav_b b); [| split; assumption].
      apply In_blocked_times_query. repeat split; try assumption;
        unfold combine, time_0000, time_2359, minutes_per_day in *; lia.
    + apply existing_appointment_query_none.
      intros a Ha Hst Hsch [Hov1 Hov2].
      apply (Hav_a a); [| split; assumption].
      apply In_existing_appointments_query.
      specialize (Hday a Ha Hsch). unfold within_one_day in Hday.
      pose proof (date_of_spec (Appointment.start_time a)).
      repeat split; try assumption;
        unfold combine, time_0000, time_2359, minutes_per_day in *; nia.
Qed.

(** X7.  Conversely, on an open day that is neither past nor the current
    one and has no holiday row, every start of that day on the grid
    from opening time which [check_appointment_slot_available] accepts
    for the service's duration is returned. *)
Theorem bookable_grid_slot_is_listed (req : Request) (db : Database)
  (clk : Clock) (st sv : Z) (d : date) (service : Service.t)
  (bh : BusinessHours.t) (k : nat) :
  parses req st sv d ->
  Service_get db sv = Some service ->
  BusinessHours_first db (weekday d) = Some bh ->
  BusinessHours.is_closed bh = false ->
  holiday_query db st d = None ->
  date_of (now_future_check clk) <= d ->
  date_of (now_today_check clk) <> d ->
  date_of (combine d (BusinessHours.open_time bh) + 30 * Z.of_nat k) = d ->
  check_appointment_slot_available db st
    (combine d (BusinessHours.open_time bh) + 30 * Z.of_nat k)
    (combine d (BusinessHours.open_time bh) + 30 * Z.of_nat k
     + Service.duration_minutes service) = true ->
  In (combine d (BusinessHours.open_time bh) + 30 * Z.of_nat k)
     (slots_of (handler req db clk)).
Proof.
  intros Hp Hs Hb Hopen Hhol Hfut Hnow Hdate Hcheck.
  rewrite (handler_on_future_day _ _ _ _ _ _ _ _ _ _ Hp Hs Hb Hopen Hhol Hfut Hnow).
  simpl slots_of.
  destruct (accepted_within_business_hours _ _ _ _ Hcheck)
    as (bh' & Hb' & _ & Hlo & Hhi).
  rewrite Hdate in Hb', Hlo, Hhi.
  assert (bh' = bh) by congruence. subst bh'.
  assert (Hq := Hcheck).
  apply (check_within_hours db st _ _ bh) in Hq;
    rewrite ?Hdate; try assumption.
  destruct Hq as [Hqb Hqa].
  rewrite blocked_time_query_none in Hqb.
  rewrite existing_appointment_query_none in Hqa.
  apply (available_times_from_complete _ _ _ _ k);
    [unfold interval, timedelta; lia |].
  apply slot_is_available_iff. unfold interval. split.
  - intros a Hin. apply In_existing_appointments_query in Hin.
    destruct Hin as (Hin & Hst & _ & Hsch). now apply Hqa.
  - intros b Hin. apply In_blocked_times_query in Hin.
    destruct Hin as (Hin & Hst & _). now apply Hqb.
Qed.

(** X8.  A start returned for the current date passes the booking
    form's lead-time validator as long as the clock, when the form is
    validated, has not reached the next 30-minute boundary after the
    reading the listing rounded. *)
Theorem listed_slot_passes_form_validator (req : Request) (db : Database)
  (clk : Clock) (st sv : Z) (d : date) (s : datetime)
  (now_first now_second : datetime) :
  parses req st sv d ->
  date_of (now_today_check clk) = d ->
  date_of (now_rounding clk) = d ->
  In s (slots_of (handler req db clk)) ->
  now_first <= now_second ->
  now_second / 30 = now_rounding clk / 30 ->
  AppointmentForm.validate_start_time now_first now_second s = None.
Proof.
  intros Hp Htoday Hround Hin Hmono Hsame.
  pose proof (listed_today_lower _ _ _ _ _ _ _ _ _ Hin Hp Htoday) as Hlow.
  assert (Hbound : now_second + 60 < s).
  { unfold start_minutes_with_buffer, interval, buffer_minutes in Hlow.
    rewrite hour_minute in Hlow.
    pose proof (Z.div_mod (now_rounding clk) 1440 ltac:(lia)) as Hdm.
    pose proof (Z.mod_pos_bound (now_rounding clk) 1440 ltac:(lia)) as Hmb.
    pose proof (Z.div_mod now_second 30 ltac:(lia)) as H2.
    pose proof (Z.mod_pos_bound now_second 30 ltac:(lia)) as H2b.
    assert (Hq : now_rounding clk / 30
                 = 48 * d + time_of (now_rounding clk) / 30).
    { unfold date_of, time_of, minutes_per_day in *.
      replace (now_rounding clk)
        with (now_rounding clk mod 1440 + (48 * d) * 30) at 1 by lia.
      rewrite Z.div_add by lia. lia. }
    unfold combine, minutes_per_day in Hlow. lia. }
  unfold AppointmentForm.validate_start_time, timedelta.
  destruct (Z.leb_spec s now_first); [lia |].
  destruct (Z.leb_spec s (now_second + 60)); [lia | reflexivity].
Qed.

End ListingGuarantees.

(** * Booking-time validation, continued *)

Lemma check_false_of_scheduled_overlap (db : Database) (st : Z)
  (start end_ : datetime) (a : Appointment.t) :
  In a (appointments db) ->
  Appointment.stylist_id a = st ->
  Appointment.status a = STATUS_SCHEDULED ->
  overlaps (Appointment.start_time a) (Appointment.end_time a) start end_ ->
  check_appointment_slot_available db st start end_ = false.
Proof.
  intros Hin Hst Hsch Hov.
  destruct (check_appointment_slot_available db st start end_) eqn:E;
    [| reflexivity].
  destruct (accepted_within_business_hours _ _ _ _ E)
    as (bh & Hb & Hopen & Hlo & Hhi).
  apply (check_within_hours db st start end_ bh Hb Hopen Hlo Hhi) in E.
  destruct E as [_ E]. rewrite existing_appointment_query_none in E.
  exfalso. exact (E a Hin Hst Hsch Hov).
Qed.

Lemma check_false_of_block_overlap (db : Database) (st : Z)
  (start end_ : datetime) (b : BlockedTime.t) :
  In b (blocked_times db) ->
  BlockedTime.stylist_id b = st ->
  overlaps (BlockedTime.start_time b) (BlockedTime.end_time b) start end_ ->
  check_appointment_slot_available db st start end_ = false.
Proof.
  intros Hin Hst Hov.
  destruct (check_appointment_slot_available db st start end_) eqn:E;
    [| reflexivity].
  destruct (accepted_within_business_hours _ _ _ _ E)
    as (bh & Hb & Hopen & Hlo & Hhi).
  apply (check_within_hours db st start end_ bh Hb Hopen Hlo Hhi) in E.
  destruct E as [E _]. rewrite blocked_time_query_none in E.
  exfalso. exact (E b Hin Hst Hov).
Qed.

(** What an accepted interval is known to avoid. *)
Lemma accepted_avoids (db : Database) (st : Z) (start end_ : datetime) :
  check_appointment_slot_available db st start end_ = true ->
  (forall b, In b (blocked_times db) -> BlockedTime.stylist_id b = st ->
     ~ overlaps (BlockedTime.start_time b) (BlockedTime.end_time b) start end_)
  /\ (forall a, In a (appointments db) -> Appointment.stylist_id a = st ->
        Appointment.status a = STATUS_SCHEDULED ->
        ~ overlaps (Appointment.start_time a) (Appointment.end_time a)
                   start end_).
Proof.
  intros E. split.
  - intros b Hin Hst Hov.
    rewrite (check_false_of_block_overlap db st start end_ b Hin Hst Hov) in E.
    discriminate.
  - intros a Hin Hst Hsch Hov.
    rewrite (check_false_of_scheduled_overlap db st start end_ a Hin Hst Hsch Hov)
      in E.
    discriminate.
Qed.

(** X9.  An interval inside an accepted interval, starting on the same
    day, is accepted too. *)
Theorem accepted_interval_shrinks (db : Database) (st : Z)
  (start end_ start' end' : datetime) :
  check_appointment_slot_available db st start end_ = true ->
  start <= start' ->
  end' <= end_ ->
  date_of start' = date_of start ->
  check_appointment_slot_available db st start' end' = true.
Proof.
  intros E Hs He Hd.
  destruct (accepted_within_business_hours _ _ _ _ E)
    as (bh & Hb & Hopen & Hlo & Hhi).
  destruct (accepted_avoids _ _ _ _ E) as [Hblk Happ].
  apply (check_within_hours db st start' end' bh); rewrite ?Hd;
    try assumption; try lia.
  split.
  - apply blocked_time_query_none. intros b Hin Hst [H1 H2].
    apply (Hblk b Hin Hst). unfold overlaps. lia.
  - apply existing_appointment_query_none. intros a Hin Hst Hsch [H1 H2].
    apply (Happ a Hin Hst Hsch). unfold overlaps. lia.
Qed.

(** * The client routes *)


(** The tables after a booking: unchanged, or one 'scheduled' row more
    for an interval the check accepted. *)
Lemma book_appointment_cases (users : list User.t) (db : Database) (c : Z)
  (form : AppointmentForm.t) :
  fst (Client.book_appointment users db c form) = db
  \/ exists service,
       Service_get db (AppointmentForm.service_id form) = Some service
       /\ check_appointment_slot_available db
            (AppointmentForm.stylist_id form)
            (AppointmentForm.start_time form)
            (AppointmentForm.start_time form
             + Service.duration_minutes service) = true
       /\ fst (Client.book_appointment users db c form)
          = with_appointments db
              (appointments db
               ++ [Appointment.mk c (AppointmentForm.stylist_id form)
                     (AppointmentForm.service_id form)
                     (AppointmentForm.start_time form)
                     (AppointmentForm.start_time form
                      + Service.duration_minutes service)
                     STATUS_SCHEDULED]).
Proof.
  unfold Client.book_appointment, timedelta.
  destruct (Service_get db (AppointmentForm.service_id form)) as [service |];
    [| now left].
  destruct (check_appointment_slot_available db
              (AppointmentForm.stylist_id form)
              (AppointmentForm.start_time form)
              (AppointmentForm.start_time form
               + Service.duration_minutes service)) eqn:E;
    [| now left].
  right. exists service. simpl.
  destruct (User_get users (AppointmentForm.stylist_id form));
    repeat split; solve [reflexivity | exact E].
Qed.


(** X11.  Once a booking is confirmed, a further booking for the same
    stylist whose interval overlaps the booked one is answered 'slot no
    longer available' and changes nothing. *)
Theorem overlapping_booking_refused (users : list User.t) (db db' : Database)
  (c c2 : Z) (form form2 : AppointmentForm.t) (service service2 : Service.t) :
  Client.book_appointment users db c form = (db', BookingConfirmed) ->
  Service_get db (AppointmentForm.service_id form) = Some service ->
  Service_get db (AppointmentForm.service_id form2) = Some service2 ->
  AppointmentForm.stylist_id form2 = AppointmentForm.stylist_id form ->
  overlaps (AppointmentForm.start_time form)
           (AppointmentForm.start_time form + Service.duration_minutes service)
           (AppointmentForm.start_time form2)
           (AppointmentForm.start_time form2
            + Service.duration_minutes service2) ->
  Client.book_appointment users db' c2 form2 = (db', SlotNoLongerAvailable).
Proof.
  intros Hbook Hs Hs2 Hst Hov.
  destruct (book_appointment_cases users db c form)
    as [Hsame | (service' & Hs' & Hcheck & Hdb)].
  - exfalso. revert Hbook Hsame. unfold Client.book_appointment.
    rewrite Hs.
    destruct (check_appointment_slot_available db
                (AppointmentForm.stylist_id form)
                (AppointmentForm.start_time form)
                (AppointmentForm.start_time form
                 + timedelta (Service.duration_minutes service)));
      simpl; [| discriminate].
    destruct (User_get users (AppointmentForm.stylist_id form));
      [| discriminate].
    intros _ Heq. simpl in Heq.
    apply (f_equal appointments) in Heq. simpl in Heq.
    apply (f_equal (@List.length _)) in Heq.
    rewrite length_app in Heq. simpl in Heq. lia.
  - assert (service' = service) by congruence. subst service'.
    rewrite Hbook in Hdb. simpl in Hdb. subst db'.
    unfold Client.book_appointment.
    change (Service_get (with_appointments db _) (AppointmentForm.service_id form2))
      with (Service_get db (AppointmentForm.service_id form2)).
    rewrite Hs2. unfold timedelta.
    rewrite (check_false_of_scheduled_overlap _ _ _ _
               (Appointment.mk c (AppointmentForm.stylist_id form)
                  (AppointmentForm.service_id form)
                  (AppointmentForm.start_time form)
                  (AppointmentForm.start_time form
                   + Service.duration_minutes service)
                  STATUS_SCHEDULED)).
    + reflexivity.
    + simpl. apply in_or_app. right. now left.
    + simpl. congruence.
    + reflexivity.
    + exact Hov.
Qed.

Lemma find_snoc_skip {A : Type} (f : A -> bool) (l : list A) (x : A) :
  f x = false -> find f (l ++ [x]) = find f l.
Proof.
  intros Hx. rewrite (find_app_skip f l [] x Hx). now rewrite app_nil_r.
Qed.

Lemma filter_snoc_skip {A : Type} (f : A -> bool) (l : list A) (x : A) :
  f x = false -> filter f (l ++ [x]) = filter f l.
Proof.
  intros Hx. rewrite (filter_app_skip f l [] x Hx). now rewrite app_nil_r.
Qed.

Lemma update_row_split {A : Type} (f : A -> A) (l1 l2 : list A) (a : A) :
  update_row (List.length l1) f (l1 ++ a :: l2) = l1 ++ f a :: l2.
Proof. induction l1 as [| x l1 IH]; simpl; [reflexivity | now rewrite IH]. Qed.

Lemma delete_row_split {A : Type} (l1 l2 : list A) (a : A) :
  delete_row (List.length l1) (l1 ++ a :: l2) = l1 ++ l2.
Proof. induction l1 as [| x l1 IH]; simpl; [reflexivity | now rewrite IH]. Qed.

Lemma nth_error_update_row {A : Type} (f : A -> A) (l : list A) :
  forall id j,
    nth_error (update_row id f l) j
    = if Nat.eqb j id then option_map f (nth_error l j) else nth_error l j.
Proof.
  induction l as [| x l IH]; intros [| id] [| j]; simpl; try reflexivity.
  - now destruct (Nat.eqb j id).
  - apply IH.
Qed.

Lemma nth_error_delete_row {A : Type} (l : list A) :
  forall id j,
    nth_error (delete_row id l) j
    = if Nat.ltb j id then nth_error l j else nth_error l (S j).
Proof.
  induction l as [| x l IH]; intros id j.
  - destruct id, j; simpl; try reflexivity; now destruct (Nat.ltb _ _).
  - destruct id as [| id], j as [| j]; try reflexivity.
    change (nth_error (delete_row id l) j
            = if Nat.ltb j id then nth_error l j else nth_error l (S j)).
    apply IH.
Qed.

(** The booking check does not see a row that is not 'scheduled'. *)
Lemma check_skip (db : Database) (before after : list Appointment.t)
  (a : Appointment.t) (st : Z) (start end_ : datetime) :
  String.eqb (Appointment.status a) "scheduled" = false ->
  check_appointment_slot_available
    (with_appointments db (before ++ a :: after)) st start end_
  = check_appointment_slot_available
      (with_appointments db (before ++ after)) st start end_.
Proof.
  intros Hst.
  unfold check_appointment_slot_available, existing_appointment_query,
    blocked_time_query, BusinessHours_first, with_appointments. simpl.
  rewrite find_app_skip; [reflexivity |].
  now rewrite Hst, andb_false_r.
Qed.

(** Nor a row of another stylist. *)
Lemma check_snoc_other (db : Database) (a : Appointment.t) (st : Z)
  (start end_ : datetime) :
  Appointment.stylist_id a <> st ->
  check_appointment_slot_available
    (with_appointments db (appointments db ++ [a])) st start end_
  = check_appointment_slot_available db st start end_.
Proof.
  intros Hst.
  unfold check_appointment_slot_available, existing_appointment_query,
    blocked_time_query, BusinessHours_first, with_appointments. simpl.
  rewrite find_snoc_skip; [reflexivity |].
  apply Z.eqb_neq in Hst. now rewrite Hst.
Qed.

Lemma with_appointments_same (db : Database) :
  with_appointments db (appointments db) = db.
Proof. now destruct db. Qed.

(** Slot generation reads the appointment table only through the query
    for the stylist and the day. *)
Lemma available_times_for_same (db db' : Database) (clk : Clock)
  (st sv : Z) (d : date) :
  services db' = services db ->
  business_hours db' = business_hours db ->
  blocked_times db' = blocked_times db ->
  existing_appointments_query db' st d = existing_appointments_query db st d ->
  available_times_for db' clk st sv d = available_times_for db clk st sv d.
Proof.
  intros H1 H2 H3 H4.
  unfold available_times_for, Service_get, BusinessHours_first, holiday_query,
    blocked_times_query.
  now rewrite H1, H2, H3, H4.
Qed.

Section ClientRoutes.

Variable strptime_date : string -> option date.
Variable int_of_str : string -> option Z.

Local Abbreviation handler := (get_available_times strptime_date int_of_str).
Local Abbreviation parses := (parses strptime_date int_of_str).

Lemma handler_same (db db' : Database) :
  services db' = services db ->
  business_hours db' = business_hours db ->
  blocked_times db' = blocked_times db ->
  (forall st d, existing_appointments_query db' st d
                = existing_appointments_query db st d) ->
  forall req clk, handler req db' clk = handler req db clk.
Proof.
  intros H1 H2 H3 H4 req clk. unfold get_available_times.
  destruct (not_ (form_stylist_id req) || not_ (form_service_id req)
            || not_ (form_appointment_date req)); [reflexivity |].
  destruct (form_stylist_id req) as [s1 |]; [| reflexivity].
  destruct (form_service_id req) as [s2 |]; [| reflexivity].
  destruct (form_appointment_date req) as [s3 |]; [| reflexivity].
  unfold generate_available_times.
  destruct (parse_date strptime_date s3) as [d | e]; [| reflexivity].
  destruct (int_ int_of_str s1) as [st | e]; [| reflexivity].
  destruct (int_ int_of_str s2) as [sv | e]; [| reflexivity].
  simpl bind. now rewrite (available_times_for_same db db' clk st sv d).
Qed.

(** Slot discovery does not see a row that is not 'scheduled'. *)
Lemma handler_skip (db : Database) (before after : list Appointment.t)
  (a : Appointment.t) :
  String.eqb (Appointment.status a) "scheduled" = false ->
  forall req clk,
    handler req (with_appointments db (before ++ a :: after)) clk
    = handler req (with_appointments db (before ++ after)) clk.
Proof.
  intros Hst. apply handler_same; try reflexivity.
  intros st d. now apply existing_appointments_query_skip.
Qed.

(** X12.  A booking for one stylist changes no answer about another
    stylist: the booking check and slot discovery for any other stylist
    are the same before and after. *)
Theorem booking_leaves_other_stylists (users : list User.t) (db : Database)
  (c : Z) (form : AppointmentForm.t) (st : Z) :
  st <> AppointmentForm.stylist_id form ->
  (forall start end_,
      check_appointment_slot_available
        (fst (Client.book_appointment users db c form)) st start end_
      = check_appointment_slot_available db st start end_)
  /\ (forall req clk sv d,
        parses req st sv d ->
        handler req (fst (Client.book_appointment users db c form)) clk
        = handler req db clk).
Proof.
  intros Hst.
  destruct (book_appointment_cases users db c form)
    as [-> | (service & _ & _ & ->)]; [now split |].
  split.
  - intros start end_. apply check_snoc_other. simpl. congruence.
  - intros req clk sv d Hp.
    rewrite !(get_available_times_parsed _ _ _ _ _ _ _ _ Hp). f_equal.
    apply available_times_for_same; try reflexivity.
    unfold existing_appointments_query, with_appointments. simpl.
    apply filter_snoc_skip. simpl.
    destruct (Z.eqb_spec (AppointmentForm.stylist_id form) st);
      [congruence | reflexivity].
Qed.

(** The outcomes of [cancel_appointment]. *)
Lemma cancel_appointment_cases (users : list User.t) (db db' : Database)
  (c : Z) (utcnow : datetime) (id : nat) (r : Cancellation) :
  Client.cancel_appointment users db c utcnow id = (db', r) ->
  (r <> CancellationDone /\ db' = db)
  \/ (r = CancellationDone
      /\ exists a,
           nth_error (appointments db) id = Some a
           /\ Appointment.client_id a = c
           /\ utcnow < Appointment.start_time a
           /\ db' = with_appointments db
                      (update_row id Appointment_cancel (appointments db))).
Proof.
  unfold Client.cancel_appointment, get_or_404.
  destruct (nth_error (appointments db) id) as [a |];
    [| intros [= <- <-]; left; split; [discriminate | reflexivity]].
  destruct (Z.eqb_spec (Appointment.client_id a) c) as [Hc | Hc]; simpl;
    [| intros [= <- <-]; left; split; [discriminate | reflexivity]].
  destruct (Z.leb_spec (Appointment.start_time a) utcnow);
    [intros [= <- <-]; left; split; [discriminate | reflexivity] |].
  destruct (User_get users (Appointment.stylist_id a));
    [| intros [= <- <-]; left; split; [discriminate | reflexivity]].
  destruct (Service_get db (Appointment.service_id a));
    [| intros [= <- <-]; left; split; [discriminate | reflexivity]].
  intros [= <- <-]. right. split; [reflexivity |]. exists a. auto.
Qed.

(** X13.  [cancel_appointment] changes the tables only when the row
    exists, belongs to the current user and has not started; then it
    changes the status of that one row to 'cancelled' and nothing else.
    Any other answer leaves the tables as they were. *)
Theorem cancellation_is_guarded (users : list User.t) (db db' : Database)
  (c : Z) (utcnow : datetime) (id : nat) (r : Cancellation) :
  Client.cancel_appointment users db c utcnow id = (db', r) ->
  (r <> CancellationDone -> db' = db)
  /\ (r = CancellationDone ->
      exists a,
        nth_error (appointments db) id = Some a
        /\ Appointment.client_id a = c
        /\ utcnow < Appointment.start_time a
        /\ nth_error (appointments db') id
           = Some (Appointment_set_status STATUS_CANCELLED a)
        /\ (forall j, j <> id ->
              nth_error (appointments db') j = nth_error (appointments db) j)
        /\ services db' = services db
        /\ business_hours db' = business_hours db
        /\ blocked_times db' = blocked_times db).
Proof.
  intros H. apply cancel_appointment_cases in H.
  destruct H as [[Hr ->] | [-> (a & Hn & Hc & Ht & ->)]].
  - split; [reflexivity | contradiction].
  - split; [congruence |]. intros _. exists a.
    repeat split; try assumption; simpl.
    + rewrite nth_error_update_row, Nat.eqb_refl, Hn. reflexivity.
    + intros j Hj. rewrite nth_error_update_row.
      apply Nat.eqb_neq in Hj. now rewrite Hj.
Qed.

(** X14.  After a cancellation the time is free again: the booking
    check and slot discovery answer as they would had the cancelled row
    never been stored. *)
Theorem cancellation_frees_the_time (users : list User.t) (db db' : Database)
  (c : Z) (utcnow : datetime) (id : nat) :
  Client.cancel_appointment users db c utcnow id = (db', CancellationDone) ->
  (forall st start end_,
      check_appointment_slot_available db' st start end_
      = check_appointment_slot_available
          (with_appointments db (delete_row id (appointments db)))
          st start end_)
  /\ (forall req clk,
        handler req db' clk
        = handler req (with_appointments db
                         (delete_row id (appointments db))) clk).
Proof.
  intros H. apply cancel_appointment_cases in H.
  destruct H as [[Hr _] | [_ (a & Hn & _ & _ & ->)]]; [congruence |].
  apply nth_error_split in Hn. destruct Hn as (l1 & l2 & -> & <-).
  rewrite update_row_split, delete_row_split.
  split.
  - intros st start end_. now apply check_skip.
  - now apply handler_skip.
Qed.

(** X15.  Booking and then cancelling restores availability: when a
    booking is confirmed and its start still lies ahead, the same client
    can cancel the new row, and afterwards the booking check and slot
    discovery answer exactly as before the booking. *)
Theorem book_then_cancel_restores (users : list User.t) (db db1 : Database)
  (c : Z) (form : AppointmentForm.t) (utcnow : datetime) :
  Client.book_appointment users db c form = (db1, BookingConfirmed) ->
  utcnow < AppointmentForm.start_time form ->
  exists db2,
    Client.cancel_appointment users db1 c utcnow
      (List.length (appointments db)) = (db2, CancellationDone)
    /\ (forall st start end_,
          check_appointment_slot_available db2 st start end_
          = check_appointment_slot_available db st start end_)
    /\ (forall req clk, handler req db2 clk = handler req db clk).
Proof.
  unfold Client.book_appointment.
  destruct (Service_get db (AppointmentForm.service_id form))
    as [service |] eqn:Hs; [| discriminate].
  destruct (check_appointment_slot_available db
              (AppointmentForm.stylist_id form)
              (AppointmentForm.start_time form)
              (AppointmentForm.start_time form
               + timedelta (Service.duration_minutes service)));
    simpl; [| discriminate].
  destruct (User_get users (AppointmentForm.stylist_id form))
    as [stylist |] eqn:Hu; [| discriminate].
  intros [= <-] Hnow.
  set (a := Appointment.mk c (AppointmentForm.stylist_id form)
              (AppointmentForm.service_id form)
              (AppointmentForm.start_time form)
              (AppointmentForm.start_time form
               + timedelta (Service.duration_minutes service))
              STATUS_SCHEDULED).
  exists (with_appointments db (appointments db ++ [Appointment_cancel a])).
  split; [| split].
  - unfold Client.cancel_appointment, get_or_404. simpl appointments.
    rewrite nth_error_app2, Nat.sub_diag by lia. simpl.
    rewrite Z.eqb_refl. simpl.
    destruct (Z.leb_spec (AppointmentForm.start_time form) utcnow); [lia |].
    rewrite Hu.
    change (Service_get (with_appointments db _) (AppointmentForm.service_id form))
      with (Service_get db (AppointmentForm.service_id form)).
    rewrite Hs. rewrite update_row_split. reflexivity.
  - intros st start end_.
    rewrite (check_skip db (appointments db) [] (Appointment_cancel a))
      by reflexivity.
    now rewrite app_nil_r, with_appointments_same.
  - intros req clk.
    rewrite (handler_skip db (appointments db) [] (Appointment_cancel a))
      by reflexivity.
    now rewrite app_nil_r, with_appointments_same.
Qed.

(** X16.  When the stylist who owns an appointment sets its status to
    'completed', 'cancelled' or 'no_show', the time is free afterwards:
    both operations answer as if the row had never been stored. *)
Theorem inactive_status_frees_the_time (users : list User.t) (db : Database)
  (c : Z) (id : nat) (status : string) (a : Appointment.t) :
  nth_error (appointments db) id = Some a ->
  Appointment.stylist_id a = c ->
  In status [STATUS_COMPLETED; STATUS_CANCELLED; STATUS_NO_SHOW] ->
  (forall st start end_,
      check_appointment_slot_available
        (fst (Stylist.update_appointment_status users db c id status))
        st start end_
      = check_appointment_slot_available
          (with_appointments db (delete_row id (appointments db)))
          st start end_)
  /\ (forall req clk,
        handler req
          (fst (Stylist.update_appointment_status users db c id status)) clk
        = handler req (with_appointments db
                         (delete_row id (appointments db))) clk).
Proof.
  intros Hn Hc Hstatus.
  assert (Hdb : fst (Stylist.update_appointment_status users db c id status)
                = with_appointments db
                    (update_row id (Appointment_set_status status)
                                (appointments db))).
  { assert (Hch : existsb (String.eqb status) Stylist.status_choices = true).
    { destruct Hstatus as [<- | [<- | [<- | []]]]; reflexivity. }
    unfold Stylist.update_appointment_status, get_or_404. rewrite Hn.
    cbv beta iota. rewrite Hc, Z.eqb_refl, Hch.
    cbv beta iota zeta delta [negb].
    destruct (Service_get _ (Appointment.service_id a));
      [destruct (User_get users (Appointment.client_id a)) |]; reflexivity. }
  rewrite Hdb.
  assert (Hns : String.eqb
                  (Appointment.status (Appointment_set_status status a))
                  "scheduled" = false).
  { destruct Hstatus as [<- | [<- | [<- | []]]]; reflexivity. }
  apply nth_error_split in Hn. destruct Hn as (l1 & l2 & -> & <-).
  rewrite update_row_split, delete_row_split.
  split.
  - intros st start end_. now apply check_skip.
  - now apply handler_skip.
Qed.

End ClientRoutes.

(** * The stylist routes *)

Lemma check_block_snoc_other (db : Database) (b : BlockedTime.t) (st : Z)
  (start end_ : datetime) :
  BlockedTime.stylist_id b <> st ->
  check_appointment_slot_available
    (with_blocked_times db (blocked_times db ++ [b])) st start end_
  = check_appointment_slot_available db st start end_.
Proof.
  intros Hst.
  unfold check_appointment_slot_available, existing_appointment_query,
    blocked_time_query, BusinessHours_first, with_blocked_times. simpl.
  rewrite find_snoc_skip; [reflexivity |].
  apply Z.eqb_neq in Hst. now rewrite Hst.
Qed.

Lemma availability_cases (db db' : Database) (c : Z) (now : datetime)
  (form : BlockTimeForm.t) :
  Stylist.availability db c now form = (db', true) ->
  now < BlockTimeForm.start_time form
  /\ BlockTimeForm.start_time form < BlockTimeForm.end_time form
  /\ db' = with_blocked_times db
             (blocked_times db
              ++ [BlockedTime.mk c (BlockTimeForm.start_time form)
                    (BlockTimeForm.end_time form)
                    (Some (BlockTimeForm.reason form)) false]).
Proof.
  unfold Stylist.availability, BlockTimeForm.validate,
    BlockTimeForm.validate_start_time, BlockTimeForm.validate_end_time.
  destruct (Z.leb_spec (BlockTimeForm.start_time form) now);
    [discriminate |].
  destruct (Z.leb_spec (BlockTimeForm.end_time form)
                       (BlockTimeForm.start_time form));
    [discriminate |].
  destruct (BlockTimeForm.validate_reason form); [discriminate |].
  intros [= <-]. auto.
Qed.

(** X17.  A block is stored only if it starts after the clock reading
    and ends after it starts.  Once stored, the booking check refuses,
    for that stylist, every interval that overlaps the block, and
    answers for every other stylist as before. *)
Theorem stored_block_refuses_bookings (db db' : Database) (c : Z)
  (now : datetime) (form : BlockTimeForm.t) :
  Stylist.availability db c now form = (db', true) ->
  now < BlockTimeForm.start_time form
  /\ BlockTimeForm.start_time form < BlockTimeForm.end_time form
  /\ (forall start end_,
        overlaps (BlockTimeForm.start_time form) (BlockTimeForm.end_time form)
                 start end_ ->
        check_appointment_slot_available db' c start end_ = false)
  /\ (forall st start end_,
        st <> c ->
        check_appointment_slot_available db' st start end_
        = check_appointment_slot_available db st start end_).
Proof.
  intros H. apply availability_cases in H. destruct H as (Hs & He & ->).
  repeat split; try assumption.
  - intros start end_ Hov.
    apply (check_false_of_block_overlap _ _ _ _
             (BlockedTime.mk c (BlockTimeForm.start_time form)
                (BlockTimeForm.end_time form)
                (Some (BlockTimeForm.reason form)) false)).
    + simpl. apply in_or_app. right. now left.
    + reflexivity.
    + exact Hov.
  - intros st start end_ Hst. apply check_block_snoc_other. simpl. congruence.
Qed.

(** X18.  Storing a block and then removing the new row, as the same
    stylist, gives back the tables exactly as they were. *)
Theorem block_then_remove_restores (db db' : Database) (c : Z)
  (now : datetime) (form : BlockTimeForm.t) :
  Stylist.availability db c now form = (db', true) ->
  Stylist.remove_blocked_time db' c (List.length (blocked_times db))
  = (db, RemovalDone).
Proof.
  intros H. apply availability_cases in H. destruct H as (_ & _ & ->).
  unfold Stylist.remove_blocked_time, get_or_404. simpl blocked_times.
  rewrite nth_error_app2, Nat.sub_diag by lia. simpl.
  rewrite Z.eqb_refl. simpl.
  rewrite delete_row_split, app_nil_r.
  now destruct db.
Qed.

(** * The admin routes *)

Lemma find_day_default_hours (existing_days : list Z) (day : Z) (ds : list Z) :
  find (fun h => BusinessHours.day_of_week h =? day)
       (Admin.default_hours existing_days ds)
  = if in_ day ds && negb (in_ day existing_days) then
      Some (BusinessHours.mk day time_0900 time_1700
                             (in_ day [SATURDAY; SUNDAY]))
    else None.
Proof.
  induction ds as [| d ds IH]; [reflexivity |].
  cbn [Admin.default_hours].
  change (in_ day (d :: ds)) with ((day =? d) || in_ day ds).
  destruct (Z.eqb_spec day d) as [<- | Hne].
  - destruct (in_ day existing_days) eqn:E.
    + cbn [negb]. rewrite IH, ?E. cbn [negb]. now rewrite !andb_false_r.
    + cbn [negb find BusinessHours.day_of_week]. now rewrite Z.eqb_refl.
  - cbn [orb]. destruct (in_ d existing_days).
    + cbn [negb]. exact IH.
    + cbn [negb find BusinessHours.day_of_week].
      destruct (Z.eqb_spec d day); [congruence | exact IH].
Qed.

Lemma find_over_app {A : Type} (f : A -> bool) (l1 l2 : list A) :
  find f (l1 ++ l2)
  = match find f l1 with
    | Some x => Some x
    | None => find f l2
    end.
Proof.
  induction l1 as [| x l1 IH]; simpl; [reflexivity |].
  now destruct (f x).
Qed.

Lemma first_none_not_in (l : list BusinessHours.t) (day : Z) :
  find (fun h => BusinessHours.day_of_week h =? day) l = None ->
  in_ day (map BusinessHours.day_of_week l) = false.
Proof.
  induction l as [| h l IH]; [reflexivity |]. simpl.
  rewrite (Z.eqb_sym day).
  destruct (BusinessHours.day_of_week h =? day); [discriminate |].
  exact IH.
Qed.

Lemma in_days (day : Z) : 0 <= day <= 6 -> in_ day Admin.days = true.
Proof.
  intros H.
  assert (day = 0 \/ day = 1 \/ day = 2 \/ day = 3 \/ day = 4 \/ day = 5
          \/ day = 6) as Hd by lia.
  repeat (destruct Hd as [-> | Hd]; [reflexivity |]). now subst.
Qed.

(** X19.  After the default rows are created every weekday 0..6 has
    business hours.  A day that had a row keeps its first row; a day
    that had none is open 09:00-17:00, except Saturday and Sunday,
    which are closed. *)
Theorem default_hours_cover_the_week (db : Database) (day : Z) :
  0 <= day <= 6 ->
  exists h,
    BusinessHours_first (Admin.create_default_hours db) day = Some h
    /\ (BusinessHours_first db day = Some h
        \/ (BusinessHours_first db day = None
            /\ h = BusinessHours.mk day time_0900 time_1700
                     (in_ day [SATURDAY; SUNDAY]))).
Proof.
  intros Hday.
  unfold BusinessHours_first, Admin.create_default_hours, with_business_hours.
  cbn [business_hours]. rewrite find_over_app.
  destruct (find (fun h => BusinessHours.day_of_week h =? day)
                 (business_hours db)) as [h |] eqn:E.
  - exists h. auto.
  - rewrite find_day_default_hours, (in_days day Hday),
      (first_none_not_in _ _ E). simpl.
    eexists. split; [reflexivity | right; split; reflexivity].
Qed.

Lemma default_hours_nil (existing_days ds : list Z) :
  (forall d, In d ds -> in_ d existing_days = true) ->
  Admin.default_hours existing_days ds = [].
Proof.
  induction ds as [| d ds IH]; intros H; [reflexivity |]. simpl.
  rewrite (H d (or_introl eq_refl)). simpl. apply IH.
  intros x Hx. apply H. now right.
Qed.

Lemma in_app_days (day : Z) (l1 l2 : list Z) :
  in_ day (l1 ++ l2) = in_ day l1 || in_ day l2.
Proof. unfold in_. apply existsb_app. Qed.

Lemma in_default_days (existing_days ds : list Z) (day : Z) :
  In day ds -> in_ day existing_days = false ->
  in_ day (map BusinessHours.day_of_week
               (Admin.default_hours existing_days ds)) = true.
Proof.
  intros Hin Hex. induction ds as [| d ds IH]; [contradiction |].
  simpl Admin.default_hours.
  destruct Hin as [-> | Hin].
  - rewrite Hex. simpl. unfold in_. simpl. now rewrite Z.eqb_refl.
  - destruct (in_ d existing_days); simpl.
    + now apply IH.
    + unfold in_. simpl. fold (in_ day (map BusinessHours.day_of_week
                                           (Admin.default_hours existing_days ds))).
      rewrite IH by assumption. apply orb_true_r.
Qed.

(** X20.  Creating the default rows a second time adds nothing. *)
Theorem create_default_hours_idempotent (db : Database) :
  Admin.create_default_hours (Admin.create_default_hours db)
  = Admin.create_default_hours db.
Proof.
  unfold Admin.create_default_hours at 1. unfold with_business_hours at 1.
  set (db1 := Admin.create_default_hours db).
  rewrite default_hours_nil.
  - rewrite app_nil_r. now destruct db1.
  - intros d Hd. unfold db1, Admin.create_default_hours, with_business_hours.
    cbn [business_hours].
    rewrite map_app, in_app_days.
    destruct (in_ d (map BusinessHours.day_of_week (business_hours db)))
      eqn:E; [reflexivity |].
    cbn [orb]. now apply in_default_days.
Qed.

Section AdminRoutes.

Variable strptime_date : string -> option date.
Variable int_of_str : string -> option Z.

Local Abbreviation handler := (get_available_times strptime_date int_of_str).
Local Abbreviation parses := (parses strptime_date int_of_str).

(** X21.  A holiday is stored only for the current date or a later one.
    Once stored, for every user whose role is 'stylist', slot discovery
    on that date returns no slot, and (with valid business hours) the
    booking check refuses every non-empty interval starting that day. *)
Theorem stored_holiday_closes_the_day (users : list User.t)
  (db db' : Database) (now : datetime) (form : HolidayForm.t) (u : User.t) :
  Admin.holidays users db now form = (db', true) ->
  In u users ->
  User.role u = ROLE_STYLIST ->
  date_of now <= HolidayForm.date_ form
  /\ (forall req clk sv,
        parses req (User.id u) sv (HolidayForm.date_ form) ->
        slots_of (handler req db' clk) = [])
  /\ (valid_hours db ->
      forall start end_,
        date_of start = HolidayForm.date_ form ->
        start < end_ ->
        check_appointment_slot_available db' (User.id u) start end_ = false).
Proof.
  unfold Admin.holidays, HolidayForm.validate, HolidayForm.validate_date.
  destruct (Z.ltb_spec (HolidayForm.date_ form) (date_of now));
    [discriminate |].
  destruct (HolidayForm.validate_description form); [discriminate |].
  intros [= Hdb] Hu Hrole.
  set (d := HolidayForm.date_ form) in *.
  set (row := BlockedTime.mk (User.id u) (combine d time_0000)
                (combine d time_2359) (Some (HolidayForm.description form))
                true).
  assert (Hrow : In row (blocked_times db')).
  { rewrite <- Hdb. cbn [blocked_times with_blocked_times].
    apply in_or_app. right.
    apply (in_map (fun stylist =>
                     BlockedTime.mk (User.id stylist)
                       (combine d time_0000) (combine d time_2359)
                       (Some (HolidayForm.description form)) true)).
    unfold stylists_query. apply filter_In. split; [exact Hu |].
    now apply String.eqb_eq. }
  assert (Hbh : business_hours db' = business_hours db)
    by (now rewrite <- Hdb).
  split; [lia |]. split.
  - intros req clk sv Hp.
    rewrite (get_available_times_parsed _ _ _ _ _ _ _ _ Hp).
    unfold available_times_for.
    destruct (Service_get db' sv); [| reflexivity].
    destruct (BusinessHours_first db' (weekday d)) as [bh |]; [| reflexivity].
    destruct (BusinessHours.is_closed bh); [reflexivity |].
    destruct (d <? date_of (now_future_check clk)); [reflexivity |].
    destruct (holiday_query_finds db' (User.id u) d row Hrow)
      as [h ->]; try reflexivity; simpl;
      unfold combine, time_0000, time_2359, minutes_per_day; lia.
  - intros Hv start end_ Hdate Hlt.
    destruct (check_appointment_slot_available db' (User.id u) start end_)
      eqn:E; [| reflexivity].
    exfalso.
    destruct (accepted_within_business_hours _ _ _ _ E)
      as (bh & Hb & _ & Hlo & Hhi).
    destruct (accepted_avoids _ _ _ _ E) as [Hblk _].
    apply (Hblk row Hrow eq_refl).
    assert (Hvb : valid_time (BusinessHours.close_time bh)).
    { apply (first_hours_valid db (weekday (date_of start)) bh Hv).
      unfold BusinessHours_first in *. now rewrite <- Hbh. }
    pose proof (date_of_spec start).
    unfold overlaps, valid_time, combine, time_0000, time_2359,
      minutes_per_day in *. simpl. rewrite Hdate in *. lia.
Qed.

End AdminRoutes.

(** * The concrete salon, continued *)

Lemma future_day_slots_characterised_witness :
  exists k : nat,
    Salon.at_ 9 30
    = combine Salon.monday
        (BusinessHours.open_time (BusinessHours.mk 0 (9 * 60) (17 * 60) false))
      + 30 * Z.of_nat k.
Proof.
  apply (proj1 (future_day_slots_characterised
                  Salon.strptime_date Salon.int_of_str
                  Salon.request Salon.empty_db Salon.day_before
                  1 1 Salon.monday (Service.mk 1 60)
                  (BusinessHours.mk 0 (9 * 60) (17 * 60) false)
                  (Salon.at_ 9 30)
                  ltac:(request_parses) eq_refl eq_refl eq_refl eq_refl
                  ltac:(evaluate) ltac:(evaluate))).
  vm_compute. tauto.
Defined.

Lemma today_slots_respect_lead_time_witness :
  now_rounding (Salon.clock_at Salon.monday 14 5) + 60 < Salon.at_ 15 30.
Proof.
  apply (today_slots_respect_lead_time Salon.strptime_date Salon.int_of_str
           Salon.request Salon.empty_db (Salon.clock_at Salon.monday 14 5)
           1 1 Salon.monday (Salon.at_ 15 30)).
  - request_parses.
  - reflexivity.
  - reflexivity.
  - vm_compute. tauto.
Defined.

Lemma no_slot_in_the_past_witness :
  Scenes.monday_1405 < Salon.at_ 15 30.
Proof.
  apply (no_slot_in_the_past Salon.strptime_date Salon.int_of_str
           Salon.request Salon.empty_db Scenes.monday_1405 (Salon.at_ 15 30)).
  - salon_hours_valid.
  - vm_compute. tauto.
Defined.

Lemma slots_avoid_blocked_times_witness :
  ~ overlaps (BlockedTime.start_time Scenes.lunch)
             (BlockedTime.end_time Scenes.lunch)
             (Salon.at_ 13 0)
             (Salon.at_ 13 0 + Service.duration_minutes (Service.mk 1 60)).
Proof.
  apply (slots_avoid_blocked_times Salon.strptime_date Salon.int_of_str
           Salon.request Scenes.lunch_db Salon.day_before
           1 1 Salon.monday (Service.mk 1 60) Scenes.lunch (Salon.at_ 13 0)).
  - salon_hours_valid.
  - request_parses.
  - reflexivity.
  - simpl. left. reflexivity.
  - reflexivity.
  - vm_compute. tauto.
Defined.

(** With the lunch block, 11:30, 12:00 and 12:30 are not offered. *)
Example lunch_block_slots :
  slots_of (salon_handler Salon.request Scenes.lunch_db Salon.day_before)
  = [Salon.at_ 9 0; Salon.at_ 9 30; Salon.at_ 10 0; Salon.at_ 10 30;
     Salon.at_ 11 0; Salon.at_ 13 0; Salon.at_ 13 30; Salon.at_ 14 0;
     Salon.at_ 14 30; Salon.at_ 15 0; Salon.at_ 15 30; Salon.at_ 16 0].
Proof. reflexivity. Qed.

Lemma listed_slot_is_bookable_witness :
  check_appointment_slot_available Salon.booked_db 1 (Salon.at_ 9 0)
    (Salon.at_ 9 0 + Service.duration_minutes (Service.mk 1 60)) = true.
Proof.
  apply (listed_slot_is_bookable Salon.strptime_date Salon.int_of_str
           Salon.request Salon.booked_db Salon.day_before
           1 1 Salon.monday (Service.mk 1 60) (Salon.at_ 9 0)).
  - salon_hours_valid.
  - intros x [<- | [<- | []]]; evaluate.
  - intros a [<- | []] _. unfold within_one_day. evaluate.
  - request_parses.
  - reflexivity.
  - vm_compute. tauto.
Defined.

Lemma bookable_grid_slot_is_listed_witness :
  In (combine Salon.monday
        (BusinessHours.open_time (BusinessHours.mk 0 (9 * 60) (17 * 60) false))
      + 30 * Z.of_nat 4)
     (slots_of (salon_handler Salon.request Salon.booked_db Salon.day_before)).
Proof.
  apply (bookable_grid_slot_is_listed Salon.strptime_date Salon.int_of_str
           Salon.request Salon.booked_db Salon.day_before
           1 1 Salon.monday (Service.mk 1 60)
           (BusinessHours.mk 0 (9 * 60) (17 * 60) false) 4).
  - request_parses.
  - reflexivity.
  - reflexivity.
  - reflexivity.
  - reflexivity.
  - evaluate.
  - evaluate.
  - reflexivity.
  - reflexivity.
Defined.

Lemma listed_slot_passes_form_validator_witness :
  AppointmentForm.validate_start_time Scenes.monday_1420 Scenes.monday_1420
    (Salon.at_ 15 30) = None.
Proof.
  apply (listed_slot_passes_form_validator
           Salon.strptime_date Salon.int_of_str
           Salon.request Salon.empty_db (Salon.clock_at Salon.monday 14 5)
           1 1 Salon.monday (Salon.at_ 15 30)
           Scenes.monday_1420 Scenes.monday_1420).
  - request_parses.
  - reflexivity.
  - reflexivity.
  - vm_compute. tauto.
  - evaluate.
  - reflexivity.
Defined.

(** Half an hour later the same slot is refused by the form. *)
Example validator_after_the_boundary :
  AppointmentForm.validate_start_time (Salon.at_ 14 30) (Salon.at_ 14 30)
    (Salon.at_ 15 30)
  = Some "Appointments must be booked at least 1 hour in advance.".
Proof. reflexivity. Qed.

Lemma accepted_interval_shrinks_witness :
  check_appointment_slot_available Salon.booked_db 1
    (Salon.at_ 11 15) (Salon.at_ 11 45) = true.
Proof.
  apply (accepted_interval_shrinks Salon.booked_db 1
           (Salon.at_ 11 0) (Salon.at_ 12 0)
           (Salon.at_ 11 15) (Salon.at_ 11 45)).
  - reflexivity.
  - evaluate.
  - evaluate.
  - reflexivity.
Defined.


Example booking_at_1000 :
  Client.book_appointment Scenes.users Salon.empty_db 7 Scenes.form_1000
  = (Salon.booked_db, BookingConfirmed).
Proof. reflexivity. Qed.

Lemma overlapping_booking_refused_witness :
  Client.book_appointment Scenes.users Salon.booked_db 8 Scenes.form_1030
  = (Salon.booked_db, SlotNoLongerAvailable).
Proof.
  apply (overlapping_booking_refused Scenes.users Salon.empty_db
           Salon.booked_db 7 8 Scenes.form_1000 Scenes.form_1030
           (Service.mk 1 60) (Service.mk 2 30)).
  - reflexivity.
  - reflexivity.
  - reflexivity.
  - reflexivity.
  - evaluate.
Defined.

Lemma booking_leaves_other_stylists_witness :
  check_appointment_slot_available
    (fst (Client.book_appointment Scenes.users Salon.empty_db 7
            Scenes.form_1000))
    2 (Salon.at_ 10 0) (Salon.at_ 11 0)
  = check_appointment_slot_available Salon.empty_db 2
      (Salon.at_ 10 0) (Salon.at_ 11 0).
Proof.
  apply (proj1 (booking_leaves_other_stylists
                  Salon.strptime_date Salon.int_of_str
                  Scenes.users Salon.empty_db 7 Scenes.form_1000 2
                  ltac:(evaluate))).
Defined.

Lemma cancellation_is_guarded_witness :
  exists a,
    nth_error (appointments Salon.booked_db) 0 = Some a
    /\ Appointment.client_id a = 7
    /\ Scenes.sunday_noon < Appointment.start_time a
    /\ nth_error (appointments Scenes.cancelled_db) 0
       = Some (Appointment_set_status STATUS_CANCELLED a)
    /\ (forall j, j <> 0%nat ->
          nth_error (appointments Scenes.cancelled_db) j
          = nth_error (appointments Salon.booked_db) j)
    /\ services Scenes.cancelled_db = services Salon.booked_db
    /\ business_hours Scenes.cancelled_db = business_hours Salon.booked_db
    /\ blocked_times Scenes.cancelled_db = blocked_times Salon.booked_db.
Proof.
  apply (proj2 (cancellation_is_guarded Scenes.users Salon.booked_db
                  Scenes.cancelled_db 7 Scenes.sunday_noon 0
                  CancellationDone eq_refl)).
  reflexivity.
Defined.

(** Another client, or a clock past the start, changes nothing. *)
Example cancellation_refused :
  Client.cancel_appointment Scenes.users Salon.booked_db 8
    Scenes.sunday_noon 0 = (Salon.booked_db, CancellationDenied)
  /\ Client.cancel_appointment Scenes.users Salon.booked_db 7
       (Salon.at_ 10 0) 0 = (Salon.booked_db, CancellationTooLate)
  /\ Client.cancel_appointment Scenes.users Salon.booked_db 7
       Scenes.sunday_noon 3 = (Salon.booked_db, CancellationNotFound).
Proof. repeat split. Qed.

Lemma cancellation_frees_the_time_witness :
  check_appointment_slot_available Scenes.cancelled_db 1
    (Salon.at_ 10 0) (Salon.at_ 11 0)
  = check_appointment_slot_available
      (with_appointments Salon.booked_db
         (delete_row 0 (appointments Salon.booked_db)))
      1 (Salon.at_ 10 0) (Salon.at_ 11 0).
Proof.
  apply (proj1 (cancellation_frees_the_time
                  Salon.strptime_date Salon.int_of_str
                  Scenes.users Salon.booked_db Scenes.cancelled_db 7
                  Scenes.sunday_noon 0 eq_refl)).
Defined.

Lemma book_then_cancel_restores_witness :
  exists db2,
    Client.cancel_appointment Scenes.users Salon.booked_db 7
      Scenes.sunday_noon (List.length (appointments Salon.empty_db))
    = (db2, CancellationDone)
    /\ check_appointment_slot_available db2 1 (Salon.at_ 10 0) (Salon.at_ 11 0)
       = check_appointment_slot_available Salon.empty_db 1
           (Salon.at_ 10 0) (Salon.at_ 11 0).
Proof.
  destruct (book_then_cancel_restores Salon.strptime_date Salon.int_of_str
              Scenes.users Salon.empty_db Salon.booked_db 7 Scenes.form_1000
              Scenes.sunday_noon eq_refl ltac:(evaluate))
    as (db2 & Hcancel & Hcheck & _).
  exists db2. split; [exact Hcancel | apply Hcheck].
Defined.

Lemma inactive_status_frees_the_time_witness :
  check_appointment_slot_available
    (fst (Stylist.update_appointment_status Scenes.users Salon.booked_db 1 0
            STATUS_COMPLETED))
    1 (Salon.at_ 10 0) (Salon.at_ 11 0)
  = check_appointment_slot_available
      (with_appointments Salon.booked_db
         (delete_row 0 (appointments Salon.booked_db)))
      1 (Salon.at_ 10 0) (Salon.at_ 11 0).
Proof.
  apply (proj1 (inactive_status_frees_the_time
                  Salon.strptime_date Salon.int_of_str
                  Scenes.users Salon.booked_db 1 0 STATUS_COMPLETED
                  Salon.ten_to_eleven eq_refl eq_refl
                  ltac:(simpl; tauto))).
Defined.

Lemma stored_block_refuses_bookings_witness :
  check_appointment_slot_available Scenes.lunch_db 1
    (Salon.at_ 12 30) (Salon.at_ 13 30) = false.
Proof.
  destruct (stored_block_refuses_bookings Salon.empty_db Scenes.lunch_db 1
              Scenes.sunday_noon Scenes.lunch_form eq_refl)
    as (_ & _ & Hrefuse & _).
  apply Hrefuse. evaluate.
Defined.

Lemma block_then_remove_restores_witness :
  Stylist.remove_blocked_time Scenes.lunch_db 1
    (List.length (blocked_times Salon.empty_db))
  = (Salon.empty_db, RemovalDone).
Proof.
  apply (block_then_remove_restores Salon.empty_db Scenes.lunch_db 1
           Scenes.sunday_noon Scenes.lunch_form eq_refl).
Defined.

Lemma default_hours_cover_the_week_witness :
  exists h,
    BusinessHours_first (Admin.create_default_hours Salon.empty_db) 5 = Some h
    /\ (BusinessHours_first Salon.empty_db 5 = Some h
        \/ (BusinessHours_first Salon.empty_db 5 = None
            /\ h = BusinessHours.mk 5 time_0900 time_1700
                     (in_ 5 [SATURDAY; SUNDAY]))).
Proof.
  apply (default_hours_cover_the_week Salon.empty_db 5). lia.
Defined.

(** The salon has rows for Monday, Tuesday and Sunday; the other four
    days get the default rows. *)
Example default_hours_of_the_salon :
  map BusinessHours.day_of_week
      (business_hours (Admin.create_default_hours Salon.empty_db))
  = [0; 1; 6; 2; 3; 4; 5].
Proof. reflexivity. Qed.

Example holiday_for_all_stylists :
  Admin.holidays Scenes.users Salon.empty_db Scenes.sunday_noon
    Scenes.new_year_form = (Scenes.closed_db, true).
Proof. reflexivity. Qed.

Lemma stored_holiday_closes_the_day_witness :
  slots_of (salon_handler Salon.request Scenes.closed_db Salon.day_before) = [].
Proof.
  destruct (stored_holiday_closes_the_day Salon.strptime_date Salon.int_of_str
              Scenes.users Salon.empty_db Scenes.closed_db Scenes.sunday_noon
              Scenes.new_year_form (User.mk 1 ROLE_STYLIST "Ada" "Moss")
              eq_refl ltac:(simpl; tauto) eq_refl)
    as (_ & Hslots & _).
  apply (Hslots Salon.request Salon.day_before 1). request_parses.
Defined.


(** * Closed days and the shape of stored appointments *)

Section ClosedDays.

Variable strptime_date : string -> option date.
Variable int_of_str : string -> option Z.

Local Abbreviation handler := (get_available_times strptime_date int_of_str).
Local Abbreviation parses := (parses strptime_date int_of_str).

(** X22.  Both operations fail closed: on a day whose weekday has no
    business-hours row, or whose first row is flagged closed, slot
    discovery returns no slot and the booking check refuses every
    interval that starts that day, for every stylist. *)
Theorem closed_day_fails_closed (req : Request) (db : Database) (clk : Clock)
  (st sv : Z) (d : date) :
  parses req st sv d ->
  BusinessHours_first db (weekday d) = None
  \/ (exists bh, BusinessHours_first db (weekday d) = Some bh
                 /\ BusinessHours.is_closed bh = true) ->
  slots_of (handler req db clk) = []
  /\ (forall st' start end_,
        date_of start = d ->
        check_appointment_slot_available db st' start end_ = false).
Proof.
  intros Hp Hclosed. split.
  - rewrite (get_available_times_parsed _ _ _ _ _ _ _ _ Hp).
    unfold available_times_for.
    destruct (Service_get db sv); [| reflexivity].
    destruct Hclosed as [-> | (bh & -> & ->)]; reflexivity.
  - intros st' start end_ Hdate.
    unfold check_appointment_slot_available. rewrite Hdate.
    destruct Hclosed as [-> | (bh & -> & ->)]; reflexivity.
Qed.

(** X23.  With valid business hours, once every 'scheduled' appointment
    ends on the day it starts, a returned start never overlaps a
    'scheduled' appointment of the requested stylist. *)
Theorem slots_avoid_scheduled_appointments (req : Request) (db : Database)
  (clk : Clock) (st sv : Z) (d : date) (service : Service.t)
  (a : Appointment.t) (s : datetime) :
  valid_hours db ->
  parses req st sv d ->
  Service_get db sv = Some service ->
  In a (appointments db) ->
  Appointment.stylist_id a = st ->
  Appointment.status a = STATUS_SCHEDULED ->
  within_one_day a ->
  In s (slots_of (handler req db clk)) ->
  ~ overlaps (Appointment.start_time a) (Appointment.end_time a)
             s (s + Service.duration_minutes service).
Proof.
  intros Hv Hp Hs Ha Hst Hsch Hday Hin [Hov1 Hov2].
  destruct (listed_slot _ _ _ _ _ _ _ _ _ _ Hin Hp Hs)
    as (bh & t0 & Hbh & _ & Ht & Hlow & Hhigh & Hav).
  apply choose_start_time_lower in Ht. destruct Ht as [Ht _].
  destruct (first_hours_valid _ _ _ Hv Hbh) as [[Ho _] [_ Hc]].
  apply slot_is_available_iff in Hav. destruct Hav as [Hav _].
  apply (Hav a); [| split; assumption].
  apply In_existing_appointments_query.
  unfold within_one_day in Hday.
  pose proof (date_of_spec (Appointment.start_time a)).
  repeat split; try assumption;
    unfold combine, time_0000, time_2359, minutes_per_day in *; nia.
Qed.

End ClosedDays.

(** X24.  With valid business hours, booking keeps every stored
    appointment on one day: if each row ends on the day it starts, so
    does each row after [book_appointment]. *)
Theorem booking_keeps_appointments_within_one_day (users : list User.t)
  (db : Database) (c : Z) (form : AppointmentForm.t) (a : Appointment.t) :
  valid_hours db ->
  (forall x, In x (appointments db) -> within_one_day x) ->
  In a (appointments (fst (Client.book_appointment users db c form))) ->
  within_one_day a.
Proof.
  intros Hv Hall Hin.
  destruct (book_appointment_cases users db c form)
    as [E | (service & _ & Hcheck & E)]; rewrite E in Hin.
  - now apply Hall.
  - simpl in Hin. apply in_app_or in Hin.
    destruct Hin as [Hin | [<- | []]]; [now apply Hall |].
    destruct (accepted_within_business_hours _ _ _ _ Hcheck)
      as (bh & Hb & _ & _ & Hhi).
    destruct (first_hours_valid _ _ _ Hv Hb) as [_ [_ Hc]].
    unfold within_one_day, combine, time_2359, minutes_per_day in *.
    simpl. lia.
Qed.

Lemma closed_day_fails_closed_witness :
  slots_of (get_available_times Scenes.strptime_date Salon.int_of_str
              Scenes.sunday_request Salon.empty_db Salon.day_before) = []
  /\ check_appointment_slot_available Salon.empty_db 1
       (combine (Salon.monday - 1) (10 * 60))
       (combine (Salon.monday - 1) (11 * 60)) = false.
Proof.
  destruct (closed_day_fails_closed Scenes.strptime_date Salon.int_of_str
              Scenes.sunday_request Salon.empty_db Salon.day_before
              1 1 (Salon.monday - 1)
              ltac:(exists "1", "1", "2023-12-31"; repeat split; evaluate)
              ltac:(right; eexists; split; reflexivity))
    as [Hslots Hcheck].
  split; [exact Hslots | apply Hcheck; reflexivity].
Defined.

Lemma slots_avoid_scheduled_appointments_witness :
  ~ overlaps (Appointment.start_time Salon.ten_to_eleven)
             (Appointment.end_time Salon.ten_to_eleven)
             (Salon.at_ 9 0)
             (Salon.at_ 9 0 + Service.duration_minutes (Service.mk 1 60)).
Proof.
  apply (slots_avoid_scheduled_appointments
           Salon.strptime_date Salon.int_of_str
           Salon.request Salon.booked_db Salon.day_before
           1 1 Salon.monday (Service.mk 1 60) Salon.ten_to_eleven
           (Salon.at_ 9 0)).
  - salon_hours_valid.
  - request_parses.
  - reflexivity.
  - simpl. left. reflexivity.
  - reflexivity.
  - reflexivity.
  - unfold within_one_day. evaluate.
  - vm_compute. tauto.
Defined.

Lemma booking_keeps_appointments_within_one_day_witness :
  within_one_day Salon.ten_to_eleven.
Proof.
  apply (booking_keeps_appointments_within_one_day
           Scenes.users Salon.empty_db 7 Scenes.form_1000
           Salon.ten_to_eleven).
  - salon_hours_valid.
  - intros x [].
  - simpl. left. reflexivity.
Defined.

(** * The states the routes produce *)

Lemma default_hours_valid (existing_days ds : list Z) (h : BusinessHours.t) :
  In h (Admin.default_hours existing_days ds) ->
  valid_time (BusinessHours.open_time h)
  /\ valid_time (BusinessHours.close_time h).
Proof.
  induction ds as [| d ds IH]; simpl; [contradiction |].
  destruct (negb (in_ d existing_days)); [| exact IH].
  intros [<- | Hin]; [| now apply IH].
  unfold valid_time, time_0900, time_1700, time_2359. simpl. lia.
Qed.

Lemma In_update_row {A : Type} (f : A -> A) (l : list A) (x : A) :
  forall id, In x (update_row id f l) ->
             In x l \/ exists y, In y l /\ x = f y.
Proof.
  induction l as [| y l IH]; intros [| id] Hin; simpl in Hin;
    try contradiction.
  - destruct Hin as [<- | Hin]; [right; exists y; simpl; auto | left; now right].
  - destruct Hin as [<- | Hin]; [left; now left |].
    destruct (IH id Hin) as [H | (z & Hz & ->)];
      [left; now right | right; exists z; simpl; auto].
Qed.

Lemma within_one_day_set_status (status : string) (a : Appointment.t) :
  within_one_day a -> within_one_day (Appointment_set_status status a).
Proof. intros H. exact H. Qed.

Lemma rows_after_status_change (status : string) (l : list Appointment.t)
  (id : nat) :
  (forall a, In a l -> within_one_day a) ->
  forall a, In a (update_row id (Appointment_set_status status) l) ->
            within_one_day a.
Proof.
  intros Hall a Hin. apply In_update_row in Hin.
  destruct Hin as [Hin | (y & Hy & ->)]; [now apply Hall |].
  apply within_one_day_set_status. now apply Hall.
Qed.

Lemma booked_rows_within_one_day (users : list User.t) (db : Database)
  (c : Z) (form : AppointmentForm.t) :
  well_shaped db ->
  well_shaped (fst (Client.book_appointment users db c form)).
Proof.
  intros [Hv Hall].
  destruct (book_appointment_cases users db c form)
    as [-> | (service & _ & Hcheck & ->)]; [now split |].
  split; [exact Hv |]. intros a Hin. simpl in Hin.
  apply in_app_or in Hin. destruct Hin as [Hin | [<- | []]]; [now apply Hall |].
  destruct (accepted_within_business_hours _ _ _ _ Hcheck)
    as (bh & Hb & _ & _ & Hhi).
  destruct (first_hours_valid _ _ _ Hv Hb) as [_ [_ Hc]].
  unfold within_one_day, combine, time_2359, minutes_per_day in *.
  simpl. lia.
Qed.

Lemma update_appointment_status_cases (users : list User.t) (db : Database)
  (c : Z) (id : nat) (status : string) :
  fst (Stylist.update_appointment_status users db c id status) = db
  \/ fst (Stylist.update_appointment_status users db c id status)
     = with_appointments db
         (update_row id (Appointment_set_status status) (appointments db)).
Proof.
  unfold Stylist.update_appointment_status.
  destruct (get_or_404 (appointments db) id) as [a |]; [| now left].
  destruct (negb (Appointment.stylist_id a =? c)); [now left |].
  destruct (negb (existsb (String.eqb status) Stylist.status_choices));
    [now left |].
  right. cbv zeta.
  destruct (Service_get _ (Appointment.service_id a));
    [destruct (User_get users (Appointment.client_id a)) |]; reflexivity.
Qed.

(** Every route keeps the shape. *)
Lemma step_keeps_shape (db db' : Database) :
  step db db' -> well_shaped db -> well_shaped db'.
Proof.
  intros Hstep [Hv Hall].
  destruct Hstep as [l | l Hl | | users now form | c now form | c id
                     | users c id status | users c form | users c utcnow id].
  - split; assumption.
  - split; [exact Hl | exact Hall].
  - split; [| exact Hall].
    intros h Hin. unfold Admin.create_default_hours, with_business_hours in Hin.
    cbn [business_hours] in Hin. apply in_app_or in Hin. destruct Hin as [Hin | Hin];
      [now apply Hv | now apply default_hours_valid in Hin].
  - unfold Admin.holidays.
    destruct (HolidayForm.validate now form); split; assumption.
  - unfold Stylist.availability.
    destruct (BlockTimeForm.validate now form); split; assumption.
  - unfold Stylist.remove_blocked_time.
    destruct (get_or_404 (blocked_times db) id) as [b |]; [| now split].
    destruct (negb (BlockedTime.stylist_id b =? c)); split; assumption.
  - destruct (update_appointment_status_cases users db c id status)
      as [-> | ->]; [now split |].
    split; [exact Hv |]. now apply rows_after_status_change.
  - now apply booked_rows_within_one_day.
  - destruct (Client.cancel_appointment users db c utcnow id)
      as [db1 r] eqn:E.
    apply cancel_appointment_cases in E. simpl.
    destruct E as [[_ ->] | [_ (a & _ & _ & _ & ->)]]; [now split |].
    split; [exact Hv |].
    now apply (rows_after_status_change STATUS_CANCELLED).
Qed.

Lemma reachable_well_shaped (db : Database) : reachable db -> well_shaped db.
Proof.
  induction 1 as [| db db' _ IH Hstep].
  - split; intros x [].
  - exact (step_keeps_shape db db' Hstep IH).
Qed.

Section ReachableStates.

Variable strptime_date : string -> option date.
Variable int_of_str : string -> option Z.

Local Abbreviation handler := (get_available_times strptime_date int_of_str).
Local Abbreviation parses := (parses strptime_date int_of_str).


End ReachableStates.

(** The salon with the 10:00-11:00 appointment is reached by entering
    the services, entering the hours and booking. *)
Lemma booked_db_reachable : reachable Salon.booked_db.
Proof.
  apply (reachable_step Salon.empty_db).
  - apply (reachable_step (mkDatabase Salon.the_services [] [] [])).
    + apply (reachable_step (mkDatabase [] [] [] [])).
      * exact reachable_empty.
      * exact (step_services (mkDatabase [] [] [] []) Salon.the_services).
    + apply (step_business_hours (mkDatabase Salon.the_services [] [] [])
                                 Salon.the_hours).
      salon_hours_valid.
  - exact (step_book_appointment Salon.empty_db Scenes.users 7
                                 Scenes.form_1000).
Qed.

(** The tables with the overnight row are not: no route stores a row
    that crosses midnight. *)
Lemma overnight_db_unreachable : ~ reachable Salon.overnight_db.
Proof.
  intros H. apply reachable_well_shaped in H. destruct H as [_ H].
  specialize (H Salon.overnight (or_introl eq_refl)).
  unfold within_one_day in H. vm_compute in H. now apply H.
Qed.

